(** * chnroutes: the range extractor, the progress reporter and the
      platform dispatch of [chnroutes.py3.py], embedded in Rocq.

    Conventions of the embedding.
    - Python [int] is [Z] (unbounded).
    - Python [str] is [string]; a character is a code point below 256.
    - A Python exception that escapes a function is the [Raise] outcome of
      the [result] monad; the exception classes that the modelled code can
      raise are the constructors of [exn].
    - [time.time()] readings and the quotients formed from them are exact
      rationals ([Q]); rounding of binary floating point is outside the
      model. *)

From Stdlib Require Import ZArith QArith Qround List Sorted String Ascii Bool.
From Stdlib Require Import Lia Lqa.
Import ListNotations.

Local Open Scope string_scope.
Local Open Scope Z_scope.

(** ** Exceptions and the result monad *)

Inductive exn : Type :=
| IndexError
| ValueError
| ZeroDivisionError
| NameError
| AttributeError.

Inductive result (A : Type) : Type :=
| Ok (a : A)
| Raise (e : exn).

Arguments Ok {A} a.
Arguments Raise {A} e.

Definition bind {A B : Type} (m : result A) (k : A -> result B) : result B :=
  match m with
  | Ok a => k a
  | Raise e => Raise e
  end.

Notation "x <- m ;; k" := (bind m (fun x => k))
  (at level 61, m at next level, right associativity).

Notation "' p <- m ;; k" := (bind m (fun x => let p := x in k))
  (at level 61, p pattern, m at next level, right associativity).

(** A list comprehension or a [for] loop with [append]: the elements are
    processed left to right and the first exception aborts the whole. *)
Fixpoint mapM {A B : Type} (f : A -> result B) (l : list A) : result (list B) :=
  match l with
  | [] => Ok []
  | a :: l' =>
      b <- f a ;;
      bs <- mapM f l' ;;
      Ok (b :: bs)
  end.

Definition is_ok {A : Type} (m : result A) : bool :=
  match m with Ok _ => true | Raise _ => false end.

(** ** Python string primitives *)

Module Py.

(** [s[i]] for a list with a non-negative index. *)
Definition index {A : Type} (l : list A) (i : nat) : result A :=
  match nth_error l i with
  | Some a => Ok a
  | None => Raise IndexError
  end.

(** [s.split(sep)] for a one-character separator: empty fields are kept. *)
Fixpoint split (sep : ascii) (s : string) : list string :=
  match s with
  | EmptyString => [EmptyString]
  | String c s' =>
      if Ascii.eqb c sep then EmptyString :: split sep s'
      else match split sep s' with
           | h :: t => String c h :: t
           | [] => [String c EmptyString]
           end
  end.

(** [s[n:]] *)
Fixpoint drop (n : nat) (s : string) : string :=
  match n, s with
  | O, _ => s
  | S n', String _ s' => drop n' s'
  | S _, EmptyString => EmptyString
  end.

(** [s[:n]] *)
Fixpoint take (n : nat) (s : string) : string :=
  match n, s with
  | S n', String c s' => String c (take n' s')
  | _, _ => EmptyString
  end.

(** [s[i:j]]; out-of-range bounds are clamped, as Python slices do. *)
Definition slice (i j : nat) (s : string) : string :=
  take (j - i) (drop i s).

(** [c * n] for a one-character string [c]. *)
Fixpoint replicate (n : nat) (c : ascii) : string :=
  match n with
  | O => EmptyString
  | S n' => String c (replicate n' c)
  end.

(** [s.zfill(width)]: zeros are inserted after a leading sign. *)
Definition zfill (width : nat) (s : string) : string :=
  let pad := replicate (width - String.length s) "0"%char in
  match s with
  | String c s' =>
      if (Ascii.eqb c "+" || Ascii.eqb c "-")%bool
      then String c (pad ++ s')
      else pad ++ s
  | EmptyString => pad
  end.

(** [sep.join(l)] *)
Fixpoint join (sep : string) (l : list string) : string :=
  match l with
  | [] => EmptyString
  | [s] => s
  | s :: l' => s ++ sep ++ join sep l'
  end.

(** [c.lower()] on the code points below 256. *)
Definition lower_char (c : ascii) : ascii :=
  let n := nat_of_ascii c in
  if ((65 <=? n) && (n <=? 90))%nat then ascii_of_nat (n + 32)
  else if ((192 <=? n) && (n <=? 222) && negb (n =? 215))%nat
       then ascii_of_nat (n + 32)
       else c.

Fixpoint lower (s : string) : string :=
  match s with
  | EmptyString => EmptyString
  | String c s' => String (lower_char c) (lower s')
  end.

End Py.

(** ** Integers and their literals *)

Module Num.

(** The digit characters that [hex] and [str] produce: the decimal digits,
    then the lower-case letters from [a] on. *)
Definition digit_char (d : Z) : ascii :=
  if d <? 10 then ascii_of_nat (Z.to_nat (48 + d))
  else ascii_of_nat (Z.to_nat (87 + d)).

(** The value of a digit character; [int(s, 16)] takes the letters in
    both cases. *)
Definition digit_val (c : ascii) : option Z :=
  let code := Z.of_nat (nat_of_ascii c) in
  if ((48 <=? code) && (code <=? 57))%bool then Some (code - 48)
  else if ((97 <=? code) && (code <=? 102))%bool then Some (code - 87)
  else if ((65 <=? code) && (code <=? 70))%bool then Some (code - 55)
  else None.

(** Repeated division by the base, least significant digit first; the fuel
    bounds the number of divisions. *)
Fixpoint to_digits (fuel : nat) (base n : Z) (acc : string) : string :=
  match fuel with
  | O => String (digit_char n) acc
  | S fuel' =>
      if n <? base then String (digit_char n) acc
      else to_digits fuel' base (n / base)
             (String (digit_char (n mod base)) acc)
  end.

(** The digits of a non-negative integer; [Z.log2 n] divisions suffice for
    every base from two on. *)
Definition render (base n : Z) : string :=
  to_digits (Z.to_nat (Z.log2 n)) base n EmptyString.

(** [hex(n)] *)
Definition hex (n : Z) : string :=
  if n <? 0 then "-0x" ++ render 16 (- n) else "0x" ++ render 16 n.

(** [str(n)], which is what ["{}".format(n)] prints for an [int]. *)
Definition str (n : Z) : string :=
  if n <? 0 then "-" ++ render 10 (- n) else render 10 n.

Fixpoint parse_digits (base acc : Z) (s : string) : option Z :=
  match s with
  | EmptyString => Some acc
  | String c s' =>
      match digit_val c with
      | Some d =>
          if d <? base then parse_digits base (acc * base + d) s' else None
      | None => None
      end
  end.

(** [int(s, base)] on a literal that is a non-empty run of digits of the
    base; anything else is a [ValueError].  (Python also takes a sign, a
    base prefix, surrounding blanks and underscores: no string that
    reaches [int] in the modelled code has them, so they are left out.
    The value is unbounded: the limit that an interpreter may put on the
    length of a decimal literal is not modelled.) *)
Definition int (base : Z) (s : string) : result Z :=
  match s with
  | EmptyString => Raise ValueError
  | _ =>
      match parse_digits base 0 s with
      | Some v => Ok v
      | None => Raise ValueError
      end
  end.

(** [int(math.log(n, 2))]: [math.log] raises [ValueError] outside its
    domain; inside it the logarithm is taken exactly and [int] truncates
    it, which gives the position of the leading one bit.  The floating
    point quotient of the two logarithms agrees with this on the host
    counts of the 32-bit address space, from 1 to 2^32. *)
Definition int_log2 (n : Z) : result Z :=
  if n <=? 0 then Raise ValueError else Ok (Z.log2 n).

End Num.

(** ** The fragment of [re] that the filter uses *)

Module Re.

(** One step of a pattern: a literal character (compared without regard to
    case, as under [re.IGNORECASE]), or a greedy repetition of a character
    class, one-or-more or zero-or-more. *)
Inductive atom : Type :=
| Chr (c : ascii)
| Plus (cls : ascii -> bool)
| Star (cls : ascii -> bool).

Definition pattern := list atom.

Definition eq_ci (a b : ascii) : bool :=
  Ascii.eqb (Py.lower_char a) (Py.lower_char b).

(** Greedy repetition with backtracking: take the character when the class
    has it and the rest still matches, give it back otherwise. *)
Fixpoint star (cls : ascii -> bool) (k : string -> option nat) (s : string)
  : option nat :=
  match s with
  | String c s' =>
      if cls c then
        match star cls k s' with
        | Some n => Some (S n)
        | None => k s
        end
      else k s
  | EmptyString => k s
  end.

(** [p.match(s)]: the length of the match of [p] at the start of [s]. *)
Fixpoint match_pat (p : pattern) (s : string) : option nat :=
  match p with
  | [] => Some O
  | Chr c :: p' =>
      match s with
      | String c' s' =>
          if eq_ci c c' then option_map S (match_pat p' s') else None
      | EmptyString => None
      end
  | Plus cls :: p' =>
      match s with
      | String c s' =>
          if cls c then option_map S (star cls (match_pat p') s') else None
      | EmptyString => None
      end
  | Star cls :: p' => star cls (match_pat p') s
  end.

(** [p.findall(s)] is [findall_from p 0 s]: the matches from left to
    right, each search resuming where the previous match ended; [skip]
    counts the characters of the last match that are still ahead. *)
Fixpoint findall_from (p : pattern) (skip : nat) (s : string) : list string :=
  match s with
  | EmptyString =>
      match skip, match_pat p EmptyString with
      | O, Some _ => [EmptyString]
      | _, _ => []
      end
  | String _ s' =>
      match skip with
      | S k => findall_from p k s'
      | O =>
          match match_pat p s with
          | Some n => Py.take n s :: findall_from p (Nat.pred n) s'
          | None => findall_from p O s'
          end
      end
  end.

Definition findall (p : pattern) (s : string) : list string :=
  findall_from p O s.

(** [p.search(s)]: the leftmost match. *)
Fixpoint search (p : pattern) (s : string) : option string :=
  match match_pat p s with
  | Some n => Some (Py.take n s)
  | None =>
      match s with
      | String _ s' => search p s'
      | EmptyString => None
      end
  end.

Definition lit (s : string) : pattern := map Chr (list_ascii_of_string s).

Definition is_digit (c : ascii) : bool :=
  let n := nat_of_ascii c in ((48 <=? n) && (n <=? 57))%nat.

Definition is_digit_or_dot (c : ascii) : bool :=
  (is_digit c || Ascii.eqb c ".")%bool.

(** [.] takes every character but the line feed. *)
Definition is_dot (c : ascii) : bool := negb (Ascii.eqb c "010").

End Re.

(** ** The range extractor: the parsing stage of [fetch_ip_data] *)

Import Re.

(** [re.compile(r'apnic\|cn\|ipv4\|[0-9\.]+\|[0-9]+\|[0-9]+\|a.*',
    re.IGNORECASE)] *)
Definition cnregex : pattern :=
  (lit "apnic|cn|ipv4|" ++
   [Plus is_digit_or_dot; Chr "|";
    Plus is_digit; Chr "|";
    Plus is_digit; Chr "|";
    Chr "a"; Star is_dot])%list.

(** An element of [results]: [(starting_ip, mask, mask2)]. *)
Definition route : Type := string * string * Z.

(** The body of the loop over [cndata]. *)
Definition route_of_item (item : string) : result route :=
  let unit_items := Py.split "|" item in
  starting_ip <- Py.index unit_items 3 ;;
  count_field <- Py.index unit_items 4 ;;
  num_ip <- Num.int 10 count_field ;;
  let imask := Z.lxor 0xffffffff (num_ip - 1) in
  let imask := Py.drop 2 (Num.hex imask) in
  let imask := Py.zfill 8 imask in
  let mask := map (fun i => Py.slice i (i + 2) imask) [0; 2; 4; 6]%nat in
  mask <- mapM (Num.int 16) mask ;;
  let mask := Py.join "." (map Num.str mask) in
  log <- Num.int_log2 num_ip ;;
  let mask2 := 32 - log in
  Ok (starting_ip, mask, mask2).

(** Lines 180 to 196 of [fetch_ip_data], on the decoded text. *)
Definition fetch_ip_data_parse (data : string) : result (list route) :=
  let cndata := findall cnregex data in
  mapM route_of_item cndata.

(** The lines of a text, and the filter applied to one line. *)
Definition lines (data : string) : list string := Py.split "010" data.

Definition matching (line : string) : bool :=
  match search cnregex line with Some _ => true | None => false end.

Definition option_list {A : Type} (o : option A) : list A :=
  match o with Some a => [a] | None => [] end.

(** The number of pipe-delimited fields of a line. *)
Definition field_count (line : string) : nat :=
  List.length (Py.split "|" line).

(** Reading a dotted mask back: four decimal octets, most significant
    first. *)
Definition decode_dotted (mask : string) : option Z :=
  match map (Num.int 10) (Py.split "." mask) with
  | [Ok a; Ok b; Ok c; Ok d] =>
      if ((a <? 256) && (b <? 256) && (c <? 256) && (d <? 256))%bool
      then Some (((a * 256 + b) * 256 + c) * 256 + d)
      else None
  | _ => None
  end.

(** ** The progress reporter: the download loop of [fetch_ip_data] *)

Definition bytes : Type := list Byte.byte.

Definition len (chunk : bytes) : Z := Z.of_nat (List.length chunk).

(** The variables that the loop updates. *)
Record progress_state : Type := {
  downloaded : Z;
  history : list (Q * Z);
  chunks : list bytes
}.

(** What one turn of the loop hands to the two [write] calls. *)
Record observation : Type := {
  progress : Q;
  speed_mb_s : Q;
  filled_length : Z;
  bar : string
}.

Definition initial_state : progress_state :=
  {| downloaded := 0; history := []; chunks := [] |}.

(** [x > y] on rationals. *)
Definition Qgtb (x y : Q) : bool := negb (Qle_bool x y).

(** [a / b] on numbers: division by zero raises. *)
Definition true_div (a b : Q) : result Q :=
  if Qeq_bool b 0 then Raise ZeroDivisionError else Ok (a / b)%Q.

(** [int(x)] on a quotient: truncation toward zero. *)
Definition int_of_Q (x : Q) : Z := Z.quot (Qnum x) (Zpos (Qden x)).

(** [while history and (current_time - history[0][0]) > 10:
      history.popleft()] *)
Fixpoint evict (current_time : Q) (history : list (Q * Z)) : list (Q * Z) :=
  match history with
  | [] => []
  | (t, _) :: rest =>
      if Qgtb (current_time - t) 10 then evict current_time rest
      else history
  end.

(** The average speed over the window, lines 158 to 164. *)
Definition window_speed (current_time : Q) (downloaded : Z)
    (history : list (Q * Z)) : result Q :=
  match history with
  | (t0, b0) :: _ =>
      if Qgtb (current_time - t0) 0 then
        let time_diff := (current_time - t0)%Q in
        let bytes_diff := downloaded - b0 in
        speed <- true_div (inject_Z bytes_diff) time_diff ;;
        true_div speed (inject_Z (1024 * 1024))
      else Ok 0%Q
  | [] => Ok 0%Q
  end.

(** [total_size] is [None] without a usable [Content-Length] header; a
    total of zero is as false as [None]. *)
Definition truthy (total_size : option Z) : option Z :=
  match total_size with
  | Some n => if n =? 0 then None else Some n
  | None => None
  end.

Definition bar_width : Z := 50.

(** One turn of the loop for a non-empty [chunk] read at [current_time]. *)
Definition step (total_size : option Z) (st : progress_state)
    (chunk : bytes) (current_time : Q)
  : result (progress_state * observation) :=
  let chunks := (chunks st ++ [chunk])%list in
  let downloaded := downloaded st + len chunk in
  let history := (history st ++ [(current_time, downloaded)])%list in
  let history := evict current_time history in
  speed_mb_s <- window_speed current_time downloaded history ;;
  progress <-
    match truthy total_size with
    | Some n =>
        q <- true_div (inject_Z downloaded) (inject_Z n) ;;
        Ok (q * 100)%Q
    | None => Ok 0%Q
    end ;;
  filled_length <-
    match truthy total_size with
    | Some n =>
        q <- true_div (inject_Z (bar_width * downloaded)) (inject_Z n) ;;
        Ok (int_of_Q q)
    | None => Ok 0
    end ;;
  let bar :=
    Py.replicate (Z.to_nat filled_length) "#" ++
    Py.replicate (Z.to_nat (bar_width - filled_length)) "-" in
  Ok ({| downloaded := downloaded; history := history; chunks := chunks |},
      {| progress := progress; speed_mb_s := speed_mb_s;
         filled_length := filled_length; bar := bar |}).

(** The loop over the reads of the response; each read comes with the clock
    reading taken after it.  An empty chunk, or the end of the reads, ends
    the loop. *)
Fixpoint download_loop (total_size : option Z) (st : progress_state)
    (reads : list (bytes * Q))
  : result (progress_state * list observation) :=
  match reads with
  | [] => Ok (st, [])
  | ([], _) :: _ => Ok (st, [])
  | (chunk, current_time) :: reads' =>
      '(st', o) <- step total_size st chunk current_time ;;
      '(st'', os) <- download_loop total_size st' reads' ;;
      Ok (st'', o :: os)
  end.

(** Lines 134 to 177: the observations, and [b"".join(chunks)]. *)
Definition download (total_size : option Z) (reads : list (bytes * Q))
  : result (bytes * list observation) :=
  '(st, os) <- download_loop total_size initial_state reads ;;
  Ok (List.concat (chunks st), os).

(** ** The platform dispatch of the main block *)

Inductive generator : Type :=
| generate_ovpn
| generate_linux
| generate_mac
| generate_android.

(** How the main block ends: inside a generator, or in [sys.exit] after a
    message on the standard error. *)
Inductive outcome : Type :=
| Called (g : generator) (metric : option Z)
| Exited (status : Z) (stderr : string).

(** [args]: with [nargs='?'] an option given without a value is [None]. *)
Record arguments : Type := {
  platform : option string;
  metric : option Z
}.

(** Lines 213 to 226.  [generate_win] is not defined in the module, so the
    call in the [win] branch raises [NameError]. *)
Definition main (args : arguments) : result outcome :=
  platform' <-
    match platform args with
    | Some p => Ok (Py.lower p)
    | None => Raise AttributeError
    end ;;
  if String.eqb platform' "openvpn" then Ok (Called generate_ovpn (metric args))
  else if String.eqb platform' "linux" then Ok (Called generate_linux (metric args))
  else if String.eqb platform' "mac" then Ok (Called generate_mac (metric args))
  else if String.eqb platform' "win" then Raise NameError
  else if String.eqb platform' "android" then
    Ok (Called generate_android (metric args))
  else
    match platform args with
    | Some p => Ok (Exited 1 ("Platform " ++ p ++ " is not supported." ++ String "010" ""))
    | None => Raise AttributeError
    end.

(** ** Notions used in the statements and proofs *)

(** Every character of [s] satisfies [f]. *)
Fixpoint all_chars (f : ascii -> bool) (s : string) : bool :=
  match s with
  | EmptyString => true
  | String c s' => (f c && all_chars f s')%bool
  end.

(** The character is a digit of the base. *)
Definition is_digit_of (base : Z) (c : ascii) : bool :=
  match Num.digit_val c with
  | Some d => d <? base
  | None => false
  end.

(** The [w] least significant digits of [n], most significant first. *)
Fixpoint fixed (w : nat) (base n : Z) : string :=
  match w with
  | O => EmptyString
  | S w' => fixed w' base (n / base) ++ String (Num.digit_char (n mod base)) ""
  end.

(** [[imask[i:i+2] for i in range(0, 8, 2)]] *)
Definition octet_slices (imask : string) : list string :=
  map (fun i => Py.slice i (i + 2) imask) [0; 2; 4; 6]%nat.

(** Lines 187 to 192: the dotted mask of a host count. *)
Definition dotted_mask (num_ip : Z) : result string :=
  let imask := Z.lxor 0xffffffff (num_ip - 1) in
  let imask := Py.zfill 8 (Py.drop 2 (Num.hex imask)) in
  mask <- mapM (Num.int 16) (octet_slices imask) ;;
  Ok (Py.join "." (map Num.str mask)).

(** A character in front of the first field of a split. *)
Definition cons_head (c : ascii) (fields : list string) : list string :=
  match fields with
  | h :: t => String c h :: t
  | [] => [String c ""]
  end.

(** The character is not the separator. *)
Definition is_not (sep c : ascii) : bool := negb (Ascii.eqb c sep).

(** Lines 184 to 186: the two fields that the loop reads. *)
Definition starting_ip (item : string) : result string :=
  Py.index (Py.split "|" item) 3.

Definition host_count (item : string) : result Z :=
  count_field <- Py.index (Py.split "|" item) 4 ;;
  Num.int 10 count_field.

(** What a match of a pattern looks like: the characters that each atom
    takes. *)
Inductive matches : pattern -> string -> Prop :=
| matches_nil : matches [] ""
| matches_chr c c' p s :
    eq_ci c c' = true -> matches p s ->
    matches (Chr c :: p) (String c' s)
| matches_plus cls c p s1 s2 :
    cls c = true -> all_chars cls s1 = true -> matches p s2 ->
    matches (Plus cls :: p) (String c (s1 ++ s2))
| matches_star cls p s1 s2 :
    all_chars cls s1 = true -> matches p s2 ->
    matches (Star cls :: p) (s1 ++ s2).

(** No atom of the pattern takes a line feed. *)
Definition atom_in_line (a : atom) : Prop :=
  match a with
  | Chr c => eq_ci c "010" = false
  | Plus cls | Star cls => cls "010"%char = false
  end.

Definition newline : ascii := "010".

(** The states of the download loop: those that some sequence of reads
    leads to from the state before the loop. *)
Definition reachable (total_size : option Z) (st : progress_state) : Prop :=
  exists reads os, download_loop total_size initial_state reads = Ok (st, os).




(** The percentage in the words of the specification: a number when the
    total is known, and no number when it is not. *)
Definition percent_spec (total_size : option Z) (downloaded : Z) : option Q :=
  match total_size with
  | Some n => Some (inject_Z downloaded / inject_Z n * 100)%Q
  | None => None
  end.

(** The values that one turn of the loop computes, as total functions of
    the cumulative byte count and the window. *)
Definition speed_value (current_time : Q) (downloaded : Z)
    (history : list (Q * Z)) : Q :=
  match history with
  | (t0, b0) :: _ =>
      if Qgtb (current_time - t0) 0
      then (inject_Z (downloaded - b0) / (current_time - t0)
            / inject_Z (1024 * 1024))%Q
      else 0%Q
  | [] => 0%Q
  end.

Definition progress_value (total_size : option Z) (downloaded : Z) : Q :=
  match truthy total_size with
  | Some n => (inject_Z downloaded / inject_Z n * 100)%Q
  | None => 0%Q
  end.

Definition filled_value (total_size : option Z) (downloaded : Z) : Z :=
  match truthy total_size with
  | Some n => int_of_Q (inject_Z (bar_width * downloaded) / inject_Z n)
  | None => 0
  end.

(** No sample of the window counts more bytes than have been downloaded. *)
Definition cumulative (st : progress_state) : Prop :=
  Forall (fun s => snd s <= downloaded st) (history st).

(** No sample of the window was taken after the time [t]. *)
Definition before (st : progress_state) (t : Q) : Prop :=
  Forall (fun s => fst s <= t)%Q (history st).

(** A record of the registry with the host count [num_ip], and a chunk
    of [n] bytes, for the examples. *)
Definition record_line (num_ip : Z) : string :=
  "apnic|CN|ipv4|1.0.0.0|" ++ Num.str num_ip ++ "|20110414|allocated".

Definition zeros (n : nat) : bytes := repeat Byte.x00 n.

(** Inversion of a match, atom by atom. *)
Ltac invert_matches :=
  repeat match goal with
    | H : matches (_ :: _) _ |- _ => inversion H; subst; clear H
    | H : matches [] _ |- _ => inversion H; subst; clear H
    end.

(** ** Further notions *)

(** The routes of a list read from the two [append] steps of two loops, one
    after the other. *)
Definition both {A : Type} (m1 m2 : result (list A)) : result (list A) :=
  l1 <- m1 ;;
  l2 <- m2 ;;
  Ok (l1 ++ l2)%list.

(** The classes of the pattern do not tell a letter from its lower case. *)
Definition atom_caseless (a : atom) : Prop :=
  match a with
  | Chr _ => True
  | Plus cls | Star cls => forall c, cls (Py.lower_char c) = cls c
  end.

(** A route as the generators expect it: an address made of digits and
    dots, and a mask that reads back as four octets. *)
Definition route_ok (r : route) : Prop :=
  let '(ip, mask, _) := r in
  ip <> "" /\ all_chars is_digit_or_dot ip = true /\
  exists m, decode_dotted mask = Some m /\ 0 <= m < 2 ^ 32.

(** The chunks that the loop receives: those before the first empty one. *)
Fixpoint received (reads : list (bytes * Q)) : list bytes :=
  match reads with
  | [] => []
  | ([], _) :: _ => []
  | (chunk, _) :: reads' => chunk :: received reads'
  end.

(** The samples that the loop takes, one for each received chunk, from the
    cumulative count [downloaded] on. *)
Fixpoint samples_from (downloaded : Z) (reads : list (bytes * Q))
  : list (Q * Z) :=
  match reads with
  | [] => []
  | ([], _) :: _ => []
  | (chunk, current_time) :: reads' =>
      (current_time, downloaded + len chunk)
        :: samples_from (downloaded + len chunk) reads'
  end.

(** The name under which the main block selects a generator. *)
Definition generator_name (g : generator) : string :=
  match g with
  | generate_ovpn => "openvpn"
  | generate_linux => "linux"
  | generate_mac => "mac"
  | generate_android => "android"
  end.

(** ** [textwrap.dedent] *)

Module Textwrap.

(** A space or a tab. *)
Definition is_blank (c : ascii) : bool :=
(Ascii.eqb c " " || Ascii.eqb c "009")%bool.

(** Lines of blanks only become empty lines. *)
Definition normalize (line : string) : string :=
if all_chars is_blank line then EmptyString else line.

(** The blanks in front of a line. *)
Fixpoint indent_of (line : string) : string :=
match line with
| String c line' => if is_blank c then String c (indent_of line') else ""
| EmptyString => ""
end.

Fixpoint common_prefix (a b : string) : string :=
match a, b with
| String x a', String y b' =>
    if Ascii.eqb x y then String x (common_prefix a' b') else ""
| _, _ => ""
end.

(** One turn of the loop over the indents: the margin stays when the indent
  starts with it, becomes the indent when it starts with the indent, and
  is cut at the first difference otherwise. *)
Definition update_margin (margin : option string) (indent : string)
: option string :=
match margin with
| None => Some indent
| Some m =>
    if String.prefix m indent then Some m
    else if String.prefix indent m then Some indent
    else Some (common_prefix m indent)
end.

(** The margin taken from the start of a line that has it. *)
Definition strip (margin line : string) : string :=
if String.prefix margin line then Py.drop (String.length margin) line
else line.

(** [textwrap.dedent(text)]: the blank-only lines are emptied, the margin
  is what the indents of the other lines have in common, and it is taken
  from every line that starts with it. *)
Definition dedent (text : string) : string :=
let text_lines := map normalize (Py.split newline text) in
let indents :=
  map indent_of
    (filter (fun l => negb (all_chars is_blank l)) text_lines) in
match fold_left update_margin indents None with
| Some (String c m) =>
    Py.join (String newline "") (map (strip (String c m)) text_lines)
| _ => Py.join (String newline "") text_lines
end.

End Textwrap.

(** ** The generators: what they write, for the [results] of
    [fetch_ip_data] *)

(** A double quote. *)
Definition dq : string := String "034" "".

(** A file that a generator writes: its name and what is written to it. *)
Definition file : Type := string * string.

(** ["{}".format(metric)] *)
Definition format_metric (metric : option Z) : string :=
  match metric with
  | Some m => Num.str m
  | None => "None"
  end.

(** A line feed. *)
Definition nl : string := String newline "".

Module Generators.

(** The literal that [generate_linux] passes to [textwrap.dedent] for
  [upscript_header]. *)
Definition linux_upscript_header : string :=
Py.join (String newline "")
  ["    #!/bin/bash";
   "    export PATH=" ++ dq ++ "/bin:/sbin:/usr/sbin:/usr/bin" ++ dq;
   "    ";
   "    OLDGW=$(dig +short oldgateway)";
   "    ";
   "    if [[ $OLDGW == '' ]]; then";
   "        exit 0";
   "    fi";
   "    ";
   "    if [ ! -e /tmp/vpn_oldgw ]; then";
   "        echo $OLDGW > /tmp/vpn_oldgw";
   "    fi";
   "    ";
   "    "].

(** The literal that [generate_linux] passes to [textwrap.dedent] for
  [downscript_header]. *)
Definition linux_downscript_header : string :=
Py.join (String newline "")
  ["    #!/bin/bash";
   "    export PATH=" ++ dq ++ "/bin:/sbin:/usr/sbin:/usr/bin" ++ dq;
   "    ";
   "    OLDGW=`cat /tmp/vpn_oldgw`";
   "    ";
   "    "].

(** The literal that [generate_mac] passes to [textwrap.dedent] for
  [upscript_header]. *)
Definition mac_upscript_header : string :=
Py.join (String newline "")
  ["    #!/bin/sh";
   "    export PATH=" ++ dq ++ "/bin:/sbin:/usr/sbin:/usr/bin" ++ dq;
   "    ";
   "    OLDGW=`netstat -nr | grep '^default' | grep -v 'ppp' | sed 's/default *\([0-9\.]*\) .*/\1/' | awk '{if($1){print $1}}'`";
   "";
   "    if [ ! -e /tmp/pptp_oldgw ]; then";
   "        echo " ++ dq ++ "${OLDGW}" ++ dq ++ " > /tmp/pptp_oldgw";
   "    fi";
   "    ";
   "    dscacheutil -flushcache";
   "";
   "    route add 10.0.0.0/8 " ++ dq ++ "${OLDGW}" ++ dq;
   "    route add 172.16.0.0/12 " ++ dq ++ "${OLDGW}" ++ dq;
   "    route add 192.168.0.0/16 " ++ dq ++ "${OLDGW}" ++ dq;
   "    "].

(** The literal that [generate_mac] passes to [textwrap.dedent] for
  [downscript_header]. *)
Definition mac_downscript_header : string :=
Py.join (String newline "")
  ["    #!/bin/sh";
   "    export PATH=" ++ dq ++ "/bin:/sbin:/usr/sbin:/usr/bin" ++ dq;
   "    ";
   "    if [ ! -e /tmp/pptp_oldgw ]; then";
   "        exit 0";
   "    fi";
   "    ";
   "    OLDGW=`cat /tmp/pptp_oldgw`";
   "";
   "    route delete 10.0.0.0/8 " ++ dq ++ "${OLDGW}" ++ dq;
   "    route delete 172.16.0.0/12 " ++ dq ++ "${OLDGW}" ++ dq;
   "    route delete 192.168.0.0/16 " ++ dq ++ "${OLDGW}" ++ dq;
   "    "].

(** The literal that [generate_android] passes to [textwrap.dedent] for
  [upscript_header]. *)
Definition android_upscript_header : string :=
Py.join (String newline "")
  ["    #!/bin/sh";
   "    alias nestat='/system/xbin/busybox netstat'";
   "    alias grep='/system/xbin/busybox grep'";
   "    alias awk='/system/xbin/busybox awk'";
   "    alias route='/system/xbin/busybox route'";
   "    ";
   "    OLDGW=`netstat -rn | grep ^0\.0\.0\.0 | awk '{print $2}'`";
   "    ";
   "    "].

(** The literal that [generate_android] passes to [textwrap.dedent] for
  [downscript_header]. *)
Definition android_downscript_header : string :=
Py.join (String newline "")
  ["    #!/bin/sh";
   "    alias route='/system/xbin/busybox route'";
   "    ";
   "    "].

(** [generate_ovpn], lines 18 to 21: one line for each route, appended to
  [routes.txt]. *)
Definition generate_ovpn (metric : option Z) (results : list route)
: list file :=
let rfile :=
  fold_left
    (fun rfile (r : route) =>
       let '(ip, mask, _) := r in
       let route_item :=
         "route " ++ ip ++ " " ++ mask ++ " net_gateway "
           ++ format_metric metric ++ nl in
       rfile ++ route_item)
    results "" in
[("routes.txt", rfile)].

(** The number that the last [print] of [generate_ovpn] puts after
  [max-routes]. *)
Definition max_routes (results : list route) : Z :=
Z.of_nat (List.length results) + 20.

(** [generate_linux], lines 28 to 56. *)
Definition generate_linux (metric : option Z) (results : list route)
: list file :=
let upscript_header := Textwrap.dedent linux_upscript_header in
let downscript_header := Textwrap.dedent linux_downscript_header in
let upfile := upscript_header ++ nl in
let downfile := downscript_header ++ nl in
let '(upfile, downfile) :=
  fold_left
    (fun (files : string * string) (r : route) =>
       let '(upfile, downfile) := files in
       let '(ip, _, mask) := r in
       (upfile ++ ("ip route add " ++ ip ++ "/" ++ Num.str mask
                     ++ " via $OLDGW" ++ nl),
        downfile ++ ("ip route del " ++ ip ++ "/" ++ Num.str mask ++ nl)))
    results (upfile, downfile) in
let downfile := downfile ++ ("rm /tmp/vpn_oldgw" ++ nl) in
[("ip-pre-up.sh", upfile); ("ip-down.sh", downfile)].

(** [generate_mac], lines 63 to 99. *)
Definition generate_mac (metric : option Z) (results : list route)
: list file :=
let upscript_header := Textwrap.dedent mac_upscript_header in
let downscript_header := Textwrap.dedent mac_downscript_header in
let upfile := upscript_header ++ nl in
let downfile := downscript_header ++ nl in
let '(upfile, downfile) :=
  fold_left
    (fun (files : string * string) (r : route) =>
       let '(upfile, downfile) := files in
       let '(ip, _, mask) := r in
       (upfile ++ ("route add " ++ ip ++ "/" ++ Num.str mask ++ " "
                     ++ dq ++ "${OLDGW}" ++ dq ++ nl),
        downfile ++ ("route delete " ++ ip ++ "/" ++ Num.str mask
                       ++ " $OLDGW" ++ nl)))
    results (upfile, downfile) in
let downfile := downfile ++ (nl ++ nl ++ "rm /tmp/pptp_oldgw" ++ nl) in
[("ip-up", upfile); ("ip-down", downfile)].

(** [generate_android], lines 106 to 126. *)
Definition generate_android (metric : option Z) (results : list route)
: list file :=
let upscript_header := Textwrap.dedent android_upscript_header in
let downscript_header := Textwrap.dedent android_downscript_header in
let upfile := upscript_header ++ nl in
let downfile := downscript_header ++ nl in
let '(upfile, downfile) :=
  fold_left
    (fun (files : string * string) (r : route) =>
       let '(upfile, downfile) := files in
       let '(ip, mask, _) := r in
       (upfile ++ ("route add -net " ++ ip ++ " netmask " ++ mask
                     ++ " gw $OLDGW" ++ nl),
        downfile ++ ("route del -net " ++ ip ++ " netmask " ++ mask ++ nl)))
    results (upfile, downfile) in
[("vpnup.sh", upfile); ("vpndown.sh", downfile)].

End Generators.

(** The generator that a [Called] outcome of the main block stands for. *)
Definition files_of (g : generator) : option Z -> list route -> list file :=
  match g with
  | generate_ovpn => Generators.generate_ovpn
  | generate_linux => Generators.generate_linux
  | generate_mac => Generators.generate_mac
  | generate_android => Generators.generate_android
  end.

(** What has been written to the file of that name. *)
Fixpoint content_of (name : string) (files : list file) : string :=
  match files with
  | [] => ""
  | (n, c) :: files' => if String.eqb n name then c else content_of name files'
  end.

(** The lines of a script that start with a command, each cut into the
    words that follow the command. *)
Definition commands (command script : string) : list (list string) :=
  flat_map
    (fun line =>
       if String.prefix command line
       then [Py.split " " (Py.drop (String.length command) line)]
       else [])
    (Py.split newline script).

(** The fields of a route hold neither a blank nor a line feed. *)
Definition route_plain (r : route) : Prop :=
  let '(ip, mask, _) := r in
  all_chars is_digit_or_dot ip = true /\
  all_chars is_digit_or_dot mask = true.

(** Neither a blank nor a line feed. *)
Definition is_plain (c : ascii) : bool :=
  negb (Ascii.eqb c " " || Ascii.eqb c newline).

(** The lines that a loop writes, one for each route, each with its line
    feed. *)
Definition written (line : route -> string) (results : list route) : string :=
  fold_right (fun r rest => (line r ++ nl) ++ rest) "" results.

(** The network of a route in the notation with a slash. *)
Definition target (r : route) : string :=
  let '(ip, _, mask2) := r in ip ++ "/" ++ Num.str mask2.

(** The old gateway between double quotes, as the scripts for macOS
    write it. *)
Definition quoted_gateway : string := dq ++ "${OLDGW}" ++ dq.

(** What follows the command in the lines for Android. *)
Definition netmask_words (gateway : string) (r : route) : string :=
  let '(ip, mask, _) := r in ip ++ " netmask " ++ mask ++ gateway.

(** What follows the command in the lines of [routes.txt]. *)
Definition ovpn_words (metric : option Z) (r : route) : string :=
  let '(ip, mask, _) := r in
  ip ++ " " ++ mask ++ " net_gateway " ++ format_metric metric.

(** The interpreter line of the scripts of a generator. *)
Definition shebang (g : generator) : string :=
  match g with
  | generate_linux => "#!/bin/bash"
  | _ => "#!/bin/sh"
  end.

(** * Properties *)

(** ** Strings *)

Lemma append_assoc (a b c : string) : (a ++ b) ++ c = a ++ (b ++ c).
Proof. induction a as [|x a IH]; simpl; [reflexivity | now rewrite IH]. Qed.

Lemma append_nil_r (a : string) : a ++ "" = a.
Proof. induction a as [|x a IH]; simpl; [reflexivity | now rewrite IH]. Qed.

Lemma length_append (a b : string) :
  String.length (a ++ b) = (String.length a + String.length b)%nat.
Proof. induction a as [|x a IH]; simpl; [reflexivity | now rewrite IH]. Qed.

Lemma all_chars_append f a b :
  all_chars f (a ++ b) = all_chars f a && all_chars f b.
Proof.
  induction a as [|x a IH]; simpl; [reflexivity|].
  now rewrite IH, andb_assoc.
Qed.

Section Radix.

Variable base : Z.
Hypothesis base_range : 2 <= base <= 16.

Lemma to_digits_acc fuel : forall n acc,
  Num.to_digits fuel base n acc = Num.to_digits fuel base n "" ++ acc.
Proof.
  induction fuel as [|fuel IH]; intros n acc; simpl; [reflexivity|].
  destruct (n <? base); [reflexivity|].
  rewrite IH, (IH _ (String _ "")), append_assoc. reflexivity.
Qed.

Lemma to_digits_fuel f1 : forall f2 n acc,
  0 <= n < 2 * 2 ^ Z.of_nat f1 -> n < 2 * 2 ^ Z.of_nat f2 ->
  Num.to_digits f1 base n acc = Num.to_digits f2 base n acc.
Proof.
  induction f1 as [|f1 IH]; intros f2 n acc H1 H2.
  - change (2 ^ Z.of_nat 0) with 1 in H1.
    destruct f2; simpl; [reflexivity|].
    destruct (Z.ltb_spec n base); [reflexivity | lia].
  - destruct f2 as [|f2].
    + change (2 ^ Z.of_nat 0) with 1 in H2. simpl.
      destruct (Z.ltb_spec n base); [reflexivity | lia].
    + simpl. destruct (Z.ltb_spec n base); [reflexivity|].
      rewrite Nat2Z.inj_succ, Z.pow_succ_r in H1, H2 by lia.
      assert (n / base <= n / 2)
        by (apply Z.div_le_compat_l; lia).
      assert (n / 2 < 2 * 2 ^ Z.of_nat f1)
        by (apply Z.div_lt_upper_bound; lia).
      assert (n / 2 < 2 * 2 ^ Z.of_nat f2)
        by (apply Z.div_lt_upper_bound; lia).
      apply IH; [split; [apply Z.div_pos|]|]; lia.
Qed.

Lemma log2_fuel n : 0 <= n -> n < 2 * 2 ^ Z.of_nat (Z.to_nat (Z.log2 n)).
Proof.
  intros Hn. rewrite Z2Nat.id by apply Z.log2_nonneg.
  destruct (Z.eq_dec n 0) as [->|]; [reflexivity|].
  rewrite <- Z.pow_succ_r by apply Z.log2_nonneg.
  apply Z.log2_spec. lia.
Qed.

Lemma render_small n : 0 <= n < base ->
  Num.render base n = String (Num.digit_char n) "".
Proof.
  intros H. unfold Num.render.
  destruct (Z.to_nat (Z.log2 n)); simpl; [reflexivity|].
  destruct (Z.ltb_spec n base); [reflexivity | lia].
Qed.

Lemma render_step n : base <= n ->
  Num.render base n =
  Num.render base (n / base) ++ String (Num.digit_char (n mod base)) "".
Proof.
  intros H. unfold Num.render.
  assert (Hq : 0 <= n / base) by (apply Z.div_pos; lia).
  pose proof (log2_fuel n ltac:(lia)) as Hn.
  pose proof (log2_fuel (n / base) Hq) as Hn'.
  remember (Z.to_nat (Z.log2 n)) as f eqn:Ef.
  destruct f as [|f].
  - change (2 ^ Z.of_nat 0) with 1 in Hn. lia.
  - simpl. destruct (Z.ltb_spec n base); [lia|].
    rewrite to_digits_acc. f_equal.
    apply to_digits_fuel; [split; [exact Hq|]|exact Hn'].
    rewrite Nat2Z.inj_succ, Z.pow_succ_r in Hn by lia.
    assert (n / base <= n / 2) by (apply Z.div_le_compat_l; lia).
    assert (n / 2 < 2 * 2 ^ Z.of_nat f)
      by (apply Z.div_lt_upper_bound; lia).
    lia.
Qed.

(** Induction on a non-negative integer along division by the base. *)
Lemma radix_ind (P : Z -> Prop) :
  (forall n, 0 <= n < base -> P n) ->
  (forall n, base <= n -> P (n / base) -> P n) ->
  forall n, 0 <= n -> P n.
Proof.
  intros Hsmall Hstep n Hn.
  revert n Hn. apply (Zlt_0_ind P).
  intros n IH Hn.
  destruct (Z_lt_le_dec n base) as [Hlt|Hge].
  - apply Hsmall. lia.
  - apply Hstep; [exact Hge|]. apply IH. split.
    + apply Z.div_pos; lia.
    + apply Z.div_lt; lia.
Qed.

Lemma digit_val_char d : 0 <= d < 16 ->
  Num.digit_val (Num.digit_char d) = Some d.
Proof.
  intros H.
  assert (E : d = 0 \/ d = 1 \/ d = 2 \/ d = 3 \/ d = 4 \/ d = 5 \/ d = 6 \/
              d = 7 \/ d = 8 \/ d = 9 \/ d = 10 \/ d = 11 \/ d = 12 \/
              d = 13 \/ d = 14 \/ d = 15) by lia.
  repeat (destruct E as [->|E]; [reflexivity|]). subst d. reflexivity.
Qed.

Lemma parse_digits_append s1 : forall s2 acc,
  Num.parse_digits base acc (s1 ++ s2) =
  match Num.parse_digits base acc s1 with
  | Some v => Num.parse_digits base v s2
  | None => None
  end.
Proof.
  induction s1 as [|c s1 IH]; intros s2 acc; simpl; [reflexivity|].
  destruct (Num.digit_val c) as [d|]; [|reflexivity].
  destruct (d <? base); [apply IH | reflexivity].
Qed.

Lemma parse_render n : 0 <= n ->
  Num.parse_digits base 0 (Num.render base n) = Some n.
Proof.
  revert n. apply radix_ind.
  - intros n Hn. rewrite render_small by exact Hn. simpl.
    rewrite digit_val_char by lia.
    destruct (Z.ltb_spec n base); [reflexivity | lia].
  - intros n Hn IH. rewrite render_step, parse_digits_append, IH by exact Hn.
    simpl. pose proof (Z.mod_pos_bound n base ltac:(lia)).
    rewrite digit_val_char by lia.
    destruct (Z.ltb_spec (n mod base) base); [|lia].
    f_equal. rewrite (Z.div_mod n base) at 3 by lia. lia.
Qed.

Lemma render_nonempty n : 0 <= n -> Num.render base n <> "".
Proof.
  intros Hn. destruct (Z_lt_le_dec n base).
  - rewrite render_small by lia. discriminate.
  - rewrite render_step by lia.
    destruct (Num.render base (n / base)); discriminate.
Qed.

Lemma int_render n : 0 <= n -> Num.int base (Num.render base n) = Ok n.
Proof.
  intros Hn. unfold Num.int. rewrite parse_render by exact Hn.
  pose proof (render_nonempty n Hn).
  destruct (Num.render base n); [contradiction | reflexivity].
Qed.

Lemma render_digits n : 0 <= n ->
  all_chars (is_digit_of base) (Num.render base n) = true.
Proof.
  revert n. apply radix_ind.
  - intros n Hn. rewrite render_small by exact Hn. simpl.
    unfold is_digit_of. rewrite digit_val_char by lia.
    destruct (Z.ltb_spec n base); [reflexivity | lia].
  - intros n Hn IH. rewrite render_step, all_chars_append, IH by exact Hn.
    simpl. pose proof (Z.mod_pos_bound n base ltac:(lia)).
    unfold is_digit_of. rewrite digit_val_char by lia.
    destruct (Z.ltb_spec (n mod base) base); [reflexivity | lia].
Qed.

End Radix.

(** ** Zero-filled renderings *)

Lemma replicate_snoc n c :
  Py.replicate n c ++ String c "" = Py.replicate (S n) c.
Proof. induction n as [|n IH]; simpl; [reflexivity | now rewrite IH]. Qed.

Lemma length_replicate n c : String.length (Py.replicate n c) = n.
Proof. induction n as [|n IH]; simpl; [reflexivity | now rewrite IH]. Qed.

Lemma all_chars_replicate f n c :
  f c = true -> all_chars f (Py.replicate n c) = true.
Proof. intros H. induction n as [|n IH]; simpl; [reflexivity | now rewrite H]. Qed.

Lemma digit_not_sign base c :
  is_digit_of base c = true -> (Ascii.eqb c "+" || Ascii.eqb c "-")%bool = false.
Proof.
  unfold is_digit_of. intros H.
  destruct (Ascii.eqb_spec c "+") as [->|_]; [discriminate|].
  destruct (Ascii.eqb_spec c "-") as [->|_]; [discriminate|reflexivity].
Qed.

Lemma zfill_digits base w s :
  all_chars (is_digit_of base) s = true ->
  Py.zfill w s = Py.replicate (w - String.length s) "0" ++ s.
Proof.
  unfold Py.zfill. destruct s as [|c s]; simpl.
  - intros _. now rewrite append_nil_r.
  - intros H. apply andb_prop in H as [H _].
    now rewrite (digit_not_sign _ _ H).
Qed.

Section Fixed.

Variable base : Z.
Hypothesis base_range : 2 <= base <= 16.

Lemma fixed_zero w : fixed w base 0 = Py.replicate w "0".
Proof.
  induction w as [|w IH]; cbn [fixed]; [reflexivity|].
  rewrite Z.div_0_l, Z.mod_0_l, IH by lia.
  apply replicate_snoc.
Qed.

Lemma pad_render w : forall n, 0 <= n < base ^ Z.of_nat (S w) ->
  Py.replicate (S w - String.length (Num.render base n)) "0"
    ++ Num.render base n = fixed (S w) base n.
Proof.
  induction w as [|w IH]; intros n Hn.
  - change (Z.of_nat 1) with 1 in Hn. rewrite Z.pow_1_r in Hn.
    rewrite (render_small base) by lia. simpl.
    now rewrite Z.mod_small by lia.
  - destruct (Z_lt_le_dec n base) as [Hlt|Hge].
    + rewrite (render_small base) by lia.
      cbn [fixed String.length Nat.sub].
      rewrite (Z.div_small n), (Z.mod_small n) by lia.
      change (fixed w base (0 / base) ++ String (Num.digit_char (0 mod base)) "")
        with (fixed (S w) base 0).
      rewrite fixed_zero. reflexivity.
    + rewrite (render_step base) by lia.
      rewrite length_append. cbn [String.length].
      replace (S (S w) - (String.length (Num.render base (n / base)) + 1))%nat
        with (S w - String.length (Num.render base (n / base)))%nat by lia.
      rewrite <- append_assoc, IH; [reflexivity|].
      split; [apply Z.div_pos; lia|].
      apply Z.div_lt_upper_bound; [lia|].
      rewrite (Nat2Z.inj_succ (S w)), Z.pow_succ_r in Hn by lia. lia.
Qed.

Lemma zfill_render w n : 0 <= n < base ^ Z.of_nat (S w) ->
  Py.zfill (S w) (Num.render base n) = fixed (S w) base n.
Proof.
  intros Hn.
  rewrite (zfill_digits base) by (apply render_digits; lia).
  now apply pad_render.
Qed.

End Fixed.

(** ** The mask of a host count *)

Lemma hex_nonneg m : 0 <= m -> Py.drop 2 (Num.hex m) = Num.render 16 m.
Proof.
  intros H. unfold Num.hex. destruct (Z.ltb_spec m 0); [lia | reflexivity].
Qed.

Lemma int16_pair a b : 0 <= a < 16 -> 0 <= b < 16 ->
  Num.int 16 (String (Num.digit_char a) (String (Num.digit_char b) "")) =
  Ok (a * 16 + b).
Proof.
  intros Ha Hb. unfold Num.int. simpl.
  rewrite !digit_val_char by assumption.
  destruct (Z.ltb_spec a 16); [|lia].
  destruct (Z.ltb_spec b 16); [|lia].
  reflexivity.
Qed.

Lemma hex_pair q : 0 <= q -> (q / 16 mod 16) * 16 + q mod 16 = q mod 256.
Proof.
  intros Hq. change 256 with (16 * 16).
  rewrite Z.rem_mul_r by lia. lia.
Qed.

(** The four slices of the zero-filled hexadecimal digits of a 32-bit value
    are its octets, most significant first. *)
Lemma octets_of_mask m : 0 <= m < 2 ^ 32 ->
  mapM (Num.int 16) (octet_slices (Py.zfill 8 (Py.drop 2 (Num.hex m)))) =
  Ok [m / 256 / 256 / 256 mod 256; m / 256 / 256 mod 256; m / 256 mod 256;
      m mod 256].
Proof.
  intros Hm. rewrite hex_nonneg by lia.
  rewrite (zfill_render 16) by (change (16 ^ Z.of_nat 8) with (2 ^ 32); lia).
  cbn [fixed append octet_slices map Py.slice Py.drop Py.take Nat.add Nat.sub].
  assert (Hd : forall q, 0 <= q mod 16 < 16)
    by (intros q; apply Z.mod_pos_bound; lia).
  cbn [mapM]. rewrite !int16_pair by apply Hd. cbn [bind].
  rewrite (hex_pair m), (hex_pair (m / 16 / 16)),
    (hex_pair (m / 16 / 16 / 16 / 16)),
    (hex_pair (m / 16 / 16 / 16 / 16 / 16 / 16))
    by (repeat apply Z.div_pos; lia).
  assert (H2 : forall q, q / 16 / 16 = q / 256)
    by (intros q; rewrite Z.div_div by lia; reflexivity).
  rewrite (H2 m), (H2 (m / 256)), (H2 (m / 256 / 256)).
  reflexivity.
Qed.

(** ** Splitting and joining *)

Lemma all_chars_impl (f g : ascii -> bool) s :
  (forall c, f c = true -> g c = true) ->
  all_chars f s = true -> all_chars g s = true.
Proof.
  intros Hfg. induction s as [|c s IH]; simpl; [reflexivity|].
  intros H. apply andb_prop in H as [H1 H2].
  now rewrite (Hfg _ H1), IH.
Qed.

Lemma split_nonempty sep s : Py.split sep s <> [].
Proof.
  destruct s as [|c s]; simpl; [discriminate|].
  destruct (Ascii.eqb c sep); [discriminate|].
  destruct (Py.split sep s); discriminate.
Qed.

Lemma split_no_sep sep s :
  all_chars (is_not sep) s = true -> Py.split sep s = [s].
Proof.
  induction s as [|c s IH]; simpl; [reflexivity|].
  unfold is_not at 1. intros H. apply andb_prop in H as [H1 H2].
  apply negb_true_iff in H1. now rewrite H1, IH.
Qed.

Lemma split_app_sep sep s1 s2 :
  all_chars (is_not sep) s1 = true ->
  Py.split sep (s1 ++ String sep s2) = s1 :: Py.split sep s2.
Proof.
  induction s1 as [|c s1 IH]; simpl.
  - intros _. now rewrite Ascii.eqb_refl.
  - unfold is_not at 1. intros H. apply andb_prop in H as [H1 H2].
    apply negb_true_iff in H1. now rewrite H1, IH.
Qed.

Lemma split_sep sep s :
  Py.split sep (String sep s) = EmptyString :: Py.split sep s.
Proof. simpl. now rewrite Ascii.eqb_refl. Qed.

Lemma split_char sep c s :
  is_not sep c = true ->
  Py.split sep (String c s) = cons_head c (Py.split sep s).
Proof.
  unfold is_not. intros H. apply negb_true_iff in H. simpl. now rewrite H.
Qed.

Lemma digit10_not_dot c : is_digit_of 10 c = true -> is_not "." c = true.
Proof.
  unfold is_digit_of, is_not. intros H.
  destruct (Ascii.eqb_spec c ".") as [->|_]; [discriminate | reflexivity].
Qed.

Lemma str_nonneg n : 0 <= n -> Num.str n = Num.render 10 n.
Proof.
  intros H. unfold Num.str. destruct (Z.ltb_spec n 0); [lia | reflexivity].
Qed.

Lemma str_no_dot n : 0 <= n -> all_chars (is_not ".") (Num.str n) = true.
Proof.
  intros H. rewrite str_nonneg by exact H.
  apply (all_chars_impl (is_digit_of 10)); [exact digit10_not_dot|].
  apply render_digits; lia.
Qed.

Lemma int_str n : 0 <= n -> Num.int 10 (Num.str n) = Ok n.
Proof.
  intros H. rewrite str_nonneg by exact H. apply int_render; lia.
Qed.

(** Reading back the mask printed from four octets. *)
Lemma decode_dotted_join a b c d :
  0 <= a < 256 -> 0 <= b < 256 -> 0 <= c < 256 -> 0 <= d < 256 ->
  decode_dotted (Py.join "." (map Num.str [a; b; c; d])) =
  Some (((a * 256 + b) * 256 + c) * 256 + d).
Proof.
  intros Ha Hb Hc Hd. unfold decode_dotted.
  cbn [map Py.join append].
  rewrite !split_app_sep, split_no_sep by (apply str_no_dot; lia).
  cbn [map]. rewrite !int_str by lia.
  destruct (Z.ltb_spec a 256); [|lia].
  destruct (Z.ltb_spec b 256); [|lia].
  destruct (Z.ltb_spec c 256); [|lia].
  destruct (Z.ltb_spec d 256); [|lia].
  reflexivity.
Qed.

(** ** The mask of a host count *)

Lemma imask_range n : 1 <= n <= 2 ^ 32 ->
  0 <= Z.lxor 0xffffffff (n - 1) < 2 ^ 32.
Proof.
  intros Hn. split.
  - apply Z.lxor_nonneg. lia.
  - destruct (Z.eq_dec (Z.lxor 0xffffffff (n - 1)) 0) as [->|Hnz]; [lia|].
    assert (0 <= Z.lxor 0xffffffff (n - 1)) by (apply Z.lxor_nonneg; lia).
    apply Z.log2_lt_pow2; [lia|].
    pose proof (Z.log2_lxor 0xffffffff (n - 1) ltac:(lia) ltac:(lia)) as Hl.
    assert (Z.log2 (n - 1) <= Z.log2 0xffffffff) by (apply Z.log2_le_mono; lia).
    change (Z.log2 0xffffffff) with 31 in *. lia.
Qed.

(** For a host count from 1 to 2^32 the dotted mask is printed, and it
    reads back as [0xffffffff ^ (num_ip - 1)]. *)
Lemma dotted_mask_decode n : 1 <= n <= 2 ^ 32 ->
  exists mask, dotted_mask n = Ok mask /\
    decode_dotted mask = Some (Z.lxor 0xffffffff (n - 1)).
Proof.
  intros Hn. pose proof (imask_range n Hn) as Hm.
  unfold dotted_mask. cbv zeta.
  set (m := Z.lxor 0xffffffff (n - 1)) in *.
  rewrite octets_of_mask by exact Hm. cbn [bind].
  eexists. split; [reflexivity|].
  assert (Hb : forall q, 0 <= q mod 256 < 256)
    by (intros q; apply Z.mod_pos_bound; lia).
  rewrite decode_dotted_join by apply Hb. f_equal.
  assert (m / 256 / 256 / 256 / 256 = 0).
  { rewrite !Z.div_div by lia. apply Z.div_small.
    change (2 ^ 32) with 4294967296 in Hm. lia. }
  pose proof (Z.div_mod m 256 ltac:(lia)).
  pose proof (Z.div_mod (m / 256) 256 ltac:(lia)).
  pose proof (Z.div_mod (m / 256 / 256) 256 ltac:(lia)).
  pose proof (Z.div_mod (m / 256 / 256 / 256) 256 ltac:(lia)).
  lia.
Qed.

(** ** Matching *)

Lemma take_0 s : Py.take 0 s = "".
Proof. destruct s; reflexivity. Qed.

Lemma take_add n1 : forall n2 s,
  Py.take (n1 + n2) s = Py.take n1 s ++ Py.take n2 (Py.drop n1 s).
Proof.
  induction n1 as [|n1 IH]; intros n2 s.
  - now rewrite take_0.
  - destruct s as [|c s]; simpl.
    + now destruct n2.
    + now rewrite IH.
Qed.

Lemma take_all n : forall s, (String.length s <= n)%nat -> Py.take n s = s.
Proof.
  induction n as [|n IH]; intros [|c s] H; simpl in *; try reflexivity; try lia.
  rewrite IH by lia. reflexivity.
Qed.

Lemma take_append n : forall s r,
  (n <= String.length s)%nat -> Py.take n (s ++ r) = Py.take n s.
Proof.
  induction n as [|n IH]; intros s r H.
  - now rewrite !take_0.
  - destruct s as [|c s]; simpl in *; [lia|].
    rewrite IH by lia. reflexivity.
Qed.

Section Star.

Variables (cls : ascii -> bool) (k : string -> option nat).

Lemma star_inv s : forall n, star cls k s = Some n ->
  exists n1 n2, n = (n1 + n2)%nat /\ (n1 <= String.length s)%nat /\
    all_chars cls (Py.take n1 s) = true /\ k (Py.drop n1 s) = Some n2.
Proof.
  induction s as [|c s IH]; intros n H; simpl in H.
  - exists O, n. repeat split; [simpl; lia | exact H].
  - destruct (cls c) eqn:Ec.
    + destruct (star cls k s) as [m|] eqn:Es.
      * injection H as <-. destruct (IH m eq_refl) as (n1 & n2 & -> & Hl & Ha & Hk).
        exists (S n1), n2. simpl. rewrite Ec, Ha.
        repeat split; [lia | exact Hk].
      * exists O, n. repeat split; [simpl; lia | exact H].
    + exists O, n. repeat split; [simpl; lia | exact H].
Qed.

Hypothesis cls_in_line : cls newline = false.
Hypothesis k_in_line : forall l r, k (l ++ String newline r) = k l.

Lemma star_in_line l : forall r,
  star cls k (l ++ String newline r) = star cls k l.
Proof.
  induction l as [|c l IH]; intros r; simpl.
  - rewrite cls_in_line. apply (k_in_line "").
  - rewrite IH. pose proof (k_in_line (String c l) r) as Hk.
    simpl in Hk. rewrite Hk. reflexivity.
Qed.

End Star.

Lemma match_pat_length p : forall s n,
  match_pat p s = Some n -> (n <= String.length s)%nat.
Proof.
  induction p as [|a p IH]; intros s n H; simpl in H.
  - injection H as <-. lia.
  - destruct a as [c|cls|cls].
    + destruct s as [|c' s]; [discriminate|].
      destruct (eq_ci c c'); [|discriminate].
      destruct (match_pat p s) as [m|] eqn:E; [|discriminate].
      injection H as <-. apply IH in E. simpl. lia.
    + destruct s as [|c s]; [discriminate|].
      destruct (cls c); [|discriminate].
      destruct (star cls (match_pat p) s) as [m|] eqn:E; [|discriminate].
      injection H as <-.
      apply star_inv in E as (n1 & n2 & -> & Hl & _ & Hk).
      apply IH in Hk. simpl.
      assert (String.length (Py.drop n1 s) <= String.length s - n1)%nat.
      { clear. revert s. induction n1; intros [|c s]; simpl; try lia.
        specialize (IHn1 s). lia. }
      lia.
    + apply star_inv in H as (n1 & n2 & -> & Hl & _ & Hk).
      apply IH in Hk.
      assert (String.length (Py.drop n1 s) <= String.length s - n1)%nat.
      { clear. revert s. induction n1; intros [|c s]; simpl; try lia.
        specialize (IHn1 s). lia. }
      lia.
Qed.

(** A match found by [match_pat] has the shape that [matches] describes. *)
Lemma match_pat_sound p : forall s n,
  match_pat p s = Some n -> matches p (Py.take n s).
Proof.
  induction p as [|a p IH]; intros s n H; simpl in H.
  - injection H as <-. rewrite take_0. constructor.
  - destruct a as [c|cls|cls].
    + destruct s as [|c' s]; [discriminate|].
      destruct (eq_ci c c') eqn:Ec; [|discriminate].
      destruct (match_pat p s) as [m|] eqn:E; [|discriminate].
      injection H as <-. simpl. constructor; [exact Ec | now apply IH].
    + destruct s as [|c s]; [discriminate|].
      destruct (cls c) eqn:Ec; [|discriminate].
      destruct (star cls (match_pat p) s) as [m|] eqn:E; [|discriminate].
      injection H as <-.
      apply star_inv in E as (n1 & n2 & -> & _ & Ha & Hk).
      simpl. rewrite take_add. constructor; [exact Ec | exact Ha | now apply IH].
    + apply star_inv in H as (n1 & n2 & -> & _ & Ha & Hk).
      rewrite take_add. constructor; [exact Ha | now apply IH].
Qed.

(** A pattern whose atoms stay in the line does not see what follows the
    line feed. *)
Lemma match_pat_in_line p : Forall atom_in_line p ->
  forall l r, match_pat p (l ++ String newline r) = match_pat p l.
Proof.
  induction 1 as [|a p Ha _ IH]; intros l r; [reflexivity|].
  destruct a as [c|cls|cls]; simpl in Ha |- *.
  - destruct l as [|c' l]; simpl.
    + unfold newline. now rewrite Ha.
    + now rewrite IH.
  - destruct l as [|c' l]; simpl.
    + unfold newline. now rewrite Ha.
    + now rewrite star_in_line.
  - now apply star_in_line.
Qed.

Lemma length_drop n : forall s,
  String.length (Py.drop n s) = (String.length s - n)%nat.
Proof.
  induction n as [|n IH]; intros [|c s]; simpl; try reflexivity. apply IH.
Qed.

Lemma all_chars_drop f n : forall s,
  all_chars f s = true -> all_chars f (Py.drop n s) = true.
Proof.
  induction n as [|n IH]; intros [|c s] H; simpl in *; try assumption.
  apply andb_prop in H as [_ H]. now apply IH.
Qed.

(** A pattern that ends in a greedy class runs to the end of a string made
    of characters of that class. *)
Lemma match_pat_to_end cls p : forall s n,
  all_chars cls s = true ->
  match_pat (p ++ [Star cls])%list s = Some n -> n = String.length s.
Proof.
  induction p as [|a p IH]; intros s n Hs H.
  - simpl in H. revert n H. induction s as [|c s IHs]; intros n H; simpl in *.
    + now injection H as <-.
    + apply andb_prop in Hs as [Hc Hs]. rewrite Hc in H.
      destruct (star cls (fun _ => Some O) s) as [m|] eqn:E.
      * injection H as <-. f_equal. now apply IHs.
      * exfalso. clear -E. induction s as [|c' s IHs']; simpl in E;
          [discriminate|].
        destruct (cls c'); [|discriminate].
        destruct (star cls (fun _ => Some O) s); [discriminate | auto].
  - simpl in H. destruct a as [c|cls'|cls'].
    + destruct s as [|c' s]; [discriminate|].
      destruct (eq_ci c c'); [|discriminate].
      destruct (match_pat (p ++ [Star cls])%list s) as [m|] eqn:E; [|discriminate].
      injection H as <-. simpl in Hs. apply andb_prop in Hs as [_ Hs].
      simpl. f_equal. now apply IH.
    + destruct s as [|c s]; [discriminate|].
      destruct (cls' c); [|discriminate].
      destruct (star cls' (match_pat (p ++ [Star cls])%list) s) as [m|] eqn:E;
        [|discriminate].
      injection H as <-. simpl in Hs. apply andb_prop in Hs as [_ Hs].
      apply star_inv in E as (n1 & n2 & -> & Hl & _ & Hk).
      apply IH in Hk; [|now apply all_chars_drop].
      rewrite length_drop in Hk. simpl. lia.
    + apply star_inv in H as (n1 & n2 & -> & Hl & _ & Hk).
      apply IH in Hk; [|now apply all_chars_drop].
      rewrite length_drop in Hk. lia.
Qed.

(** ** [findall] on a text, line by line *)

Section Findall.

Variable p : pattern.
Hypothesis p_in_line : Forall atom_in_line p.
Hypothesis p_nonempty : forall s, match_pat p s <> Some O.
Hypothesis p_to_end : forall s n,
  all_chars is_dot s = true -> match_pat p s = Some n -> n = String.length s.

Lemma match_pat_empty : match_pat p "" = None.
Proof.
  destruct (match_pat p "") as [n|] eqn:E; [|reflexivity].
  pose proof (match_pat_length _ _ _ E) as Hl. simpl in Hl.
  assert (n = O) by lia. subst n. now apply p_nonempty in E.
Qed.

Lemma findall_from_skip s : forall k,
  (String.length s <= k)%nat -> findall_from p k s = [].
Proof.
  induction s as [|c s IH]; intros k Hk; simpl.
  - rewrite match_pat_empty. now destruct k.
  - simpl in Hk. destruct k as [|k]; [lia|]. apply IH. lia.
Qed.

(** The matches in a line followed by more text are the matches in the
    line, then those in the text after the line feed. *)
Lemma findall_from_line l : forall k r,
  (k <= String.length l)%nat ->
  findall_from p k (l ++ String newline r) =
  (findall_from p k l ++ findall_from p O r)%list.
Proof.
  induction l as [|c l IH]; intros k r Hk.
  - simpl in Hk. assert (k = O) by lia. subst k.
    cbn [append findall_from].
    pose proof (match_pat_in_line p p_in_line "" r) as E.
    cbn [append] in E. rewrite E, match_pat_empty. reflexivity.
  - cbn [append findall_from]. destruct k as [|k].
    + pose proof (match_pat_in_line p p_in_line (String c l) r) as E.
      cbn [append] in E. rewrite E.
      destruct (match_pat p (String c l)) as [n|] eqn:Em.
      * pose proof (match_pat_length _ _ _ Em) as Hl.
        pose proof (take_append n (String c l) (String newline r) Hl) as Et.
        cbn [append] in Et. rewrite Et.
        rewrite IH by (simpl in Hl; lia). reflexivity.
      * apply IH. lia.
    + apply IH. simpl in Hk. lia.
Qed.

(** In one line there is at most one match, the one [search] finds. *)
Lemma findall_in_line l :
  all_chars is_dot l = true ->
  findall_from p O l = option_list (search p l).
Proof.
  induction l as [|c l IH]; intros Hl.
  - simpl. now rewrite match_pat_empty.
  - cbn [findall_from search].
    destruct (match_pat p (String c l)) as [n|] eqn:Em.
    + apply p_to_end in Em; [|exact Hl]. subst n.
      rewrite take_all by lia.
      rewrite findall_from_skip by (simpl; lia). reflexivity.
    + apply IH. simpl in Hl. now apply andb_prop in Hl as [_ Hl].
Qed.

Lemma findall_join ls :
  ls <> [] -> Forall (fun l => all_chars is_dot l = true) ls ->
  findall p (Py.join (String newline "") ls) =
  flat_map (fun l => option_list (search p l)) ls.
Proof.
  unfold findall. induction ls as [|l ls IH]; intros Hne Hls; [contradiction|].
  inversion Hls as [|? ? Hl Hls']; subst.
  destruct ls as [|l' ls].
  - simpl. rewrite findall_in_line by exact Hl. now rewrite app_nil_r.
  - change (Py.join (String newline "") (l :: l' :: ls))
      with (l ++ String newline (Py.join (String newline "") (l' :: ls))).
    rewrite findall_from_line by lia.
    rewrite findall_in_line by exact Hl.
    rewrite IH by (try discriminate; exact Hls'). reflexivity.
Qed.

End Findall.

(** ** Lines *)

Lemma join_split sep s : Py.join (String sep "") (Py.split sep s) = s.
Proof.
  induction s as [|c s IH]; simpl; [reflexivity|].
  pose proof (split_nonempty sep s) as Hs.
  destruct (Ascii.eqb_spec c sep) as [->|Hne];
    destruct (Py.split sep s) as [|h [|h' t]]; try contradiction;
    simpl in *; congruence.
Qed.

Lemma split_fields_free sep s :
  Forall (fun l => all_chars (is_not sep) l = true) (Py.split sep s).
Proof.
  induction s as [|c s IH]; simpl.
  - repeat constructor.
  - destruct (Ascii.eqb c sep) eqn:E.
    + constructor; [reflexivity | exact IH].
    + pose proof (split_nonempty sep s) as Hs.
      destruct (Py.split sep s) as [|h t]; [contradiction|].
      inversion IH; subst. constructor; [|assumption].
      simpl. unfold is_not at 1. now rewrite E.
Qed.

Lemma split_join sep ls :
  ls <> [] -> Forall (fun l => all_chars (is_not sep) l = true) ls ->
  Py.split sep (Py.join (String sep "") ls) = ls.
Proof.
  induction ls as [|l ls IH]; intros Hne Hls; [contradiction|].
  inversion Hls as [|? ? Hl Hls']; subst.
  destruct ls as [|l' ls].
  - simpl. now apply split_no_sep.
  - change (Py.join (String sep "") (l :: l' :: ls))
      with (l ++ String sep (Py.join (String sep "") (l' :: ls))).
    rewrite split_app_sep by exact Hl.
    rewrite IH by (try discriminate; exact Hls'). reflexivity.
Qed.

(** ** The filter *)

Lemma cnregex_in_line : Forall atom_in_line cnregex.
Proof. repeat constructor. Qed.

Lemma cnregex_nonempty s : match_pat cnregex s <> Some O.
Proof.
  unfold cnregex, lit. cbn [list_ascii_of_string map app match_pat].
  destruct s as [|c s]; [discriminate|].
  destruct (eq_ci "a" c); [|discriminate].
  match goal with |- option_map S ?m <> _ => destruct m end; discriminate.
Qed.

Lemma cnregex_to_end s n :
  all_chars is_dot s = true -> match_pat cnregex s = Some n ->
  n = String.length s.
Proof.
  change cnregex with
    ((lit "apnic|cn|ipv4|" ++
      [Plus is_digit_or_dot; Chr "|"; Plus is_digit; Chr "|";
       Plus is_digit; Chr "|"; Chr "a"]) ++ [Star is_dot])%list.
  apply match_pat_to_end.
Qed.

(** The matches in a text are the matches of its lines, in the order of the
    lines, at most one for each line. *)
Lemma findall_lines data :
  findall cnregex data =
  flat_map (fun l => option_list (search cnregex l)) (lines data).
Proof.
  rewrite <- (join_split newline data) at 1.
  apply findall_join.
  - exact cnregex_in_line.
  - exact cnregex_nonempty.
  - exact cnregex_to_end.
  - apply split_nonempty.
  - apply (split_fields_free newline).
Qed.

Lemma search_sound p : forall s item,
  search p s = Some item -> matches p item.
Proof.
  induction s as [|c s IH]; intros item H; simpl in H.
  - destruct (match_pat p "") as [n|] eqn:E; [|discriminate].
    injection H as <-. now apply match_pat_sound.
  - destruct (match_pat p (String c s)) as [n|] eqn:E.
    + injection H as <-. now apply match_pat_sound.
    + now apply IH.
Qed.

Lemma eq_ci_pipe c : eq_ci "|" c = true -> c = "|"%char.
Proof.
  destruct c as [[] [] [] [] [] [] [] []]; vm_compute; intros H;
    solve [reflexivity | discriminate H].
Qed.

Lemma eq_ci_sym a b : eq_ci a b = eq_ci b a.
Proof. unfold eq_ci. apply Ascii.eqb_sym. Qed.

Lemma eq_ci_not_pipe x c :
  eq_ci x c = true -> Ascii.eqb x "|" = false -> is_not "|" c = true.
Proof.
  intros H Hx. unfold is_not.
  destruct (Ascii.eqb_spec c "|") as [->|_]; [|reflexivity].
  rewrite eq_ci_sym in H. apply eq_ci_pipe in H. subst x. discriminate Hx.
Qed.

Lemma digit_or_dot_not_pipe c : is_digit_or_dot c = true -> is_not "|" c = true.
Proof.
  unfold is_not. intros H.
  destruct (Ascii.eqb_spec c "|") as [->|_]; [discriminate | reflexivity].
Qed.

Lemma digit_not_pipe c : is_digit c = true -> is_not "|" c = true.
Proof.
  unfold is_not. intros H.
  destruct (Ascii.eqb_spec c "|") as [->|_]; [discriminate | reflexivity].
Qed.

(** The fields of a match of the filter: the fourth is a non-empty run of
    digits and dots, the fifth a non-empty run of digits, and there are at
    least seven. *)
Lemma cnregex_fields item : matches cnregex item ->
  exists x0 x1 x2 ip cnt date rest,
    Py.split "|" item = x0 :: x1 :: x2 :: ip :: cnt :: date :: rest /\
    rest <> [] /\
    ip <> "" /\ all_chars is_digit_or_dot ip = true /\
    cnt <> "" /\ all_chars is_digit cnt = true.
Proof.
  intros H. unfold cnregex, lit in H. cbn [list_ascii_of_string map app] in H.
  invert_matches.
  repeat match goal with
    | H : eq_ci "|" _ = true |- _ => apply eq_ci_pipe in H; subst
    | H : eq_ci _ _ = true |- _ =>
        apply eq_ci_not_pipe in H; [|reflexivity]
    end.
  repeat match goal with
    | H : is_digit_or_dot _ = true |- _ =>
        pose proof (digit_or_dot_not_pipe _ H); revert H
    | H : is_digit _ = true |- _ => pose proof (digit_not_pipe _ H); revert H
    | H : all_chars is_digit_or_dot _ = true |- _ =>
        pose proof (all_chars_impl _ _ _ digit_or_dot_not_pipe H); revert H
    | H : all_chars is_digit _ = true |- _ =>
        pose proof (all_chars_impl _ _ _ digit_not_pipe H); revert H
    end.
  intros.
  repeat first
    [ rewrite split_sep
    | rewrite split_char by assumption
    | rewrite split_app_sep by assumption ].
  cbn [cons_head].
  eexists _, _, _, _, _, _, _. split; [reflexivity|].
  repeat split; try discriminate.
  - unfold cons_head. destruct (Py.split _ _); discriminate.
  - cbn [all_chars]. apply andb_true_intro. split; assumption.
  - cbn [all_chars]. apply andb_true_intro. split; assumption.
Qed.

(** ** The route of a matched line *)

Lemma digit_value c : is_digit c = true ->
  exists d, Num.digit_val c = Some d /\ 0 <= d < 10.
Proof.
  destruct c as [[] [] [] [] [] [] [] []]; intros H;
    try discriminate H; eexists; (split; [cbv; reflexivity | lia]).
Qed.

Lemma parse_decimal s : all_chars is_digit s = true ->
  forall acc, 0 <= acc -> exists v, Num.parse_digits 10 acc s = Some v /\ 0 <= v.
Proof.
  induction s as [|c s IH]; intros Hs acc Hacc; simpl.
  - now exists acc.
  - simpl in Hs. apply andb_prop in Hs as [Hc Hs].
    destruct (digit_value c Hc) as (d & -> & Hd).
    destruct (Z.ltb_spec d 10); [|lia].
    apply IH; [exact Hs | lia].
Qed.

Lemma int_decimal s : s <> "" -> all_chars is_digit s = true ->
  exists n, Num.int 10 s = Ok n /\ 0 <= n.
Proof.
  intros Hne Hs. destruct (parse_decimal s Hs 0 ltac:(lia)) as (v & Hv & Hv0).
  exists v. unfold Num.int. rewrite Hv. now destruct s.
Qed.

Lemma route_of_item_unfold item :
  route_of_item item =
  (ip <- starting_ip item ;;
   n <- host_count item ;;
   mask <- dotted_mask n ;;
   log <- Num.int_log2 n ;;
   Ok (ip, mask, 32 - log)).
Proof.
  unfold route_of_item, starting_ip, host_count, dotted_mask, octet_slices.
  destruct (Py.index (Py.split "|" item) 3); [|reflexivity]. cbn [bind].
  destruct (Py.index (Py.split "|" item) 4); [|reflexivity]. cbn [bind].
  destruct (Num.int 10 a0); [|reflexivity]. cbn [bind].
  destruct (mapM _ _); reflexivity.
Qed.

(** A match of the filter has its address field, and a host count field
    that is a decimal literal. *)
Lemma matched_fields item : matches cnregex item ->
  exists ip n, starting_ip item = Ok ip /\ host_count item = Ok n /\ 0 <= n.
Proof.
  intros H.
  destruct (cnregex_fields item H)
    as (x0 & x1 & x2 & ip & cnt & date & rest & E & _ & _ & _ & Hne & Hd).
  destruct (int_decimal cnt Hne Hd) as (n & Hn & Hn0).
  exists ip, n. unfold starting_ip, host_count. rewrite E. cbn.
  now rewrite Hn.
Qed.

Lemma int16_digits c0 c1 :
  is_digit_of 16 c0 = true -> is_digit_of 16 c1 = true ->
  exists v, Num.int 16 (String c0 (String c1 "")) = Ok v /\ 0 <= v < 256.
Proof.
  unfold is_digit_of, Num.int. cbn [Num.parse_digits].
  destruct (Num.digit_val c0) as [d0|] eqn:E0; [|discriminate].
  destruct (Num.digit_val c1) as [d1|] eqn:E1; [|discriminate].
  intros H0 H1. rewrite H0, H1. cbn.
  assert (0 <= d0 /\ 0 <= d1) as [? ?].
  { clear -E0 E1. split.
    - destruct c0 as [[] [] [] [] [] [] [] []]; vm_compute in E0;
        try discriminate E0; injection E0 as <-; discriminate.
    - destruct c1 as [[] [] [] [] [] [] [] []]; vm_compute in E1;
        try discriminate E1; injection E1 as <-; discriminate. }
  apply Z.ltb_lt in H0, H1.
  eexists. split; [reflexivity | lia].
Qed.

(** The slices of eight or more hexadecimal digits are read without error. *)
Lemma octets_of_digits s :
  all_chars (is_digit_of 16) s = true -> (8 <= String.length s)%nat ->
  exists a b c d, mapM (Num.int 16) (octet_slices s) = Ok [a; b; c; d].
Proof.
  intros Hs Hl.
  destruct s as [|c0 [|c1 [|c2 [|c3 [|c4 [|c5 [|c6 [|c7 s]]]]]]]];
    simpl in Hl; try lia.
  cbn [all_chars] in Hs.
  repeat match goal with
    | H : (_ && _)%bool = true |- _ => apply andb_prop in H as [? H]
    end.
  unfold octet_slices.
  cbn [map Py.slice Py.drop Py.take Nat.add Nat.sub mapM].
  destruct (int16_digits c0 c1) as (v0 & -> & _); try assumption.
  destruct (int16_digits c2 c3) as (v1 & -> & _); try assumption.
  destruct (int16_digits c4 c5) as (v2 & -> & _); try assumption.
  destruct (int16_digits c6 c7) as (v3 & -> & _); try assumption.
  cbn [bind]. now exists v0, v1, v2, v3.
Qed.

(** Every positive host count has a dotted mask: nothing checks that the
    count is a power of two, or that it fits 32 bits. *)
Lemma dotted_mask_total n : 1 <= n -> exists mask, dotted_mask n = Ok mask.
Proof.
  intros Hn. unfold dotted_mask. cbv zeta.
  assert (Hm : 0 <= Z.lxor 0xffffffff (n - 1)) by (apply Z.lxor_nonneg; lia).
  set (m := Z.lxor 0xffffffff (n - 1)) in *.
  rewrite hex_nonneg by exact Hm.
  pose proof (render_digits 16 ltac:(lia) m Hm) as Hd.
  rewrite (zfill_digits 16) by exact Hd.
  destruct (octets_of_digits
              (Py.replicate (8 - String.length (Num.render 16 m)) "0" ++
               Num.render 16 m)) as (a & b & c & d & ->).
  - rewrite all_chars_append, Hd, all_chars_replicate; reflexivity.
  - rewrite length_append, length_replicate. lia.
  - cbn [bind]. eexists. reflexivity.
Qed.

Lemma route_of_positive item ip n :
  starting_ip item = Ok ip -> host_count item = Ok n -> 1 <= n ->
  exists mask, dotted_mask n = Ok mask /\
    route_of_item item = Ok (ip, mask, 32 - Z.log2 n).
Proof.
  intros Hip Hn Hpos. destruct (dotted_mask_total n Hpos) as (mask & Hmask).
  exists mask. split; [exact Hmask|].
  rewrite route_of_item_unfold, Hip, Hn. cbn [bind]. rewrite Hmask. cbn [bind].
  unfold Num.int_log2. destruct (Z.leb_spec n 0); [lia | reflexivity].
Qed.

Lemma route_of_zero item ip :
  starting_ip item = Ok ip -> host_count item = Ok 0 ->
  route_of_item item = Raise ValueError.
Proof.
  intros Hip Hn. rewrite route_of_item_unfold, Hip, Hn. reflexivity.
Qed.

(** ** The extractor on a text *)

Lemma mapM_ok {A B : Type} (f : A -> result B) l :
  (forall x, In x l -> exists v, f x = Ok v) ->
  exists vs, mapM f l = Ok vs /\ Forall2 (fun x v => f x = Ok v) l vs.
Proof.
  induction l as [|x l IH]; intros H; simpl.
  - exists []. split; [reflexivity | constructor].
  - destruct (H x (or_introl eq_refl)) as (v & Hv).
    destruct IH as (vs & Hvs & HF); [intros y Hy; apply H; now right|].
    exists (v :: vs). rewrite Hv, Hvs. split; [reflexivity | now constructor].
Qed.

Lemma mapM_raise {A B : Type} (f : A -> result B) e l x :
  In x l -> f x = Raise e ->
  (forall y, In y l -> f y = Raise e \/ exists v, f y = Ok v) ->
  mapM f l = Raise e.
Proof.
  induction l as [|y l IH]; intros Hin Hx Hall; [contradiction|].
  simpl. destruct (Hall y (or_introl eq_refl)) as [Hy|(v & Hy)]; rewrite Hy;
    [reflexivity|].
  cbn [bind]. destruct Hin as [->|Hin]; [congruence|].
  rewrite IH; [reflexivity | exact Hin | exact Hx |].
  intros z Hz. apply Hall. now right.
Qed.

Lemma fetch_ip_data_parse_lines data :
  fetch_ip_data_parse data =
  mapM route_of_item
    (flat_map (fun l => option_list (search cnregex l)) (lines data)).
Proof. unfold fetch_ip_data_parse. now rewrite findall_lines. Qed.

Lemma fetch_ip_data_parse_join ls :
  Forall (fun l => all_chars is_dot l = true) ls ->
  fetch_ip_data_parse (Py.join (String newline "") ls) =
  mapM route_of_item (flat_map (fun l => option_list (search cnregex l)) ls).
Proof.
  intros Hls. destruct ls as [|l ls]; [reflexivity|].
  rewrite fetch_ip_data_parse_lines. unfold lines.
  change "010"%char with newline. rewrite split_join; [reflexivity | discriminate|].
  exact Hls.
Qed.

Lemma fetch_ip_data_parse_line line :
  all_chars is_dot line = true ->
  fetch_ip_data_parse line =
  mapM route_of_item (option_list (search cnregex line)).
Proof.
  intros H. rewrite <- (app_nil_r (option_list _)).
  apply (fetch_ip_data_parse_join [line]). now constructor.
Qed.

Lemma matched_items ls :
  Forall2 (fun line item => search cnregex line = Some item)
    (filter matching ls)
    (flat_map (fun l => option_list (search cnregex l)) ls).
Proof.
  induction ls as [|l ls IH]; simpl; [constructor|].
  unfold matching at 1. destruct (search cnregex l) as [item|] eqn:E; simpl.
  - constructor; assumption.
  - exact IH.
Qed.

Lemma matched_items_in ls item :
  In item (flat_map (fun l => option_list (search cnregex l)) ls) ->
  exists line, In line ls /\ search cnregex line = Some item.
Proof.
  rewrite in_flat_map. intros (line & Hl & Hi). exists line. split; [exact Hl|].
  destruct (search cnregex line); simpl in Hi; [|contradiction].
  destruct Hi as [->|[]]. reflexivity.
Qed.

(** A matched item either has a route or has the host count zero, for which
    the loop body raises [ValueError]. *)
Lemma route_of_matched item : matches cnregex item ->
  (host_count item = Ok 0 /\ route_of_item item = Raise ValueError) \/
  (exists ip n mask, starting_ip item = Ok ip /\ host_count item = Ok n /\
     1 <= n /\ dotted_mask n = Ok mask /\
     route_of_item item = Ok (ip, mask, 32 - Z.log2 n)).
Proof.
  intros H. destruct (matched_fields item H) as (ip & n & Hip & Hn & Hn0).
  destruct (Z.eq_dec n 0) as [->|Hnz].
  - left. split; [exact Hn | now apply (route_of_zero item ip)].
  - right. destruct (route_of_positive item ip n Hip Hn ltac:(lia))
      as (mask & Hmask & Hr).
    exists ip, n, mask. repeat split; try assumption; lia.
Qed.

(** ** Fields of a line and of its matches *)

Lemma split_length_cons sep c s :
  List.length (Py.split sep (String c s)) =
  if Ascii.eqb c sep then S (List.length (Py.split sep s))
  else List.length (Py.split sep s).
Proof.
  simpl. destruct (Ascii.eqb c sep); [reflexivity|].
  pose proof (split_nonempty sep s).
  destruct (Py.split sep s); [contradiction | reflexivity].
Qed.

Lemma split_length_take sep n : forall s,
  (List.length (Py.split sep (Py.take n s)) <= List.length (Py.split sep s))%nat.
Proof.
  induction n as [|n IH]; intros s.
  - rewrite take_0. simpl. pose proof (split_nonempty sep s).
    destruct (Py.split sep s); [contradiction | simpl; lia].
  - destruct s as [|c s]; [simpl; lia|].
    cbn [Py.take]. rewrite !split_length_cons. specialize (IH s).
    destruct (Ascii.eqb c sep); lia.
Qed.

Lemma search_field_count s : forall item,
  search cnregex s = Some item -> (field_count item <= field_count s)%nat.
Proof.
  unfold field_count.
  induction s as [|c s IH]; intros item H; cbn [search] in H.
  - destruct (match_pat cnregex "") as [n|]; [|discriminate].
    injection H as <-. apply split_length_take.
  - destruct (match_pat cnregex (String c s)) as [n|].
    + injection H as <-. apply split_length_take.
    + apply IH in H. rewrite split_length_cons.
      destruct (Ascii.eqb c "|"); lia.
Qed.

(** A line with fewer than seven fields has no match of the filter. *)
Lemma short_line_no_match line :
  (field_count line < 7)%nat -> search cnregex line = None.
Proof.
  intros Hl. destruct (search cnregex line) as [item|] eqn:E; [|reflexivity].
  pose proof (search_field_count _ _ E) as Hle.
  apply search_sound in E.
  destruct (cnregex_fields item E)
    as (x0 & x1 & x2 & ip & cnt & date & rest & Es & Hr & _).
  unfold field_count in Hle at 1. rewrite Es in Hle.
  destruct rest; [contradiction|]. simpl in Hle. lia.
Qed.

(** * The claims about the range extractor *)

(** C1.  For a matched record whose host count is [2^k] with [0 <= k <= 32],
    the extractor returns the route of the record with prefix length
    [32 - k] and a dotted mask that reads back, as four big-endian octets,
    as [0xFFFFFFFF XOR (hostCount - 1)]; there is such a record for every
    [k], and the host count 1024 gives the mask 255.255.252.0 and the prefix
    length 22. *)
Theorem power_of_two_route :
  (forall line item k,
     all_chars is_dot line = true ->
     search cnregex line = Some item ->
     host_count item = Ok (2 ^ k) ->
     0 <= k <= 32 ->
     exists ip mask,
       starting_ip item = Ok ip /\
       fetch_ip_data_parse line = Ok [(ip, mask, 32 - k)] /\
       decode_dotted mask = Some (Z.lxor 0xffffffff (2 ^ k - 1))) /\
  (forall k,
     0 <= k <= 32 ->
     exists mask,
       fetch_ip_data_parse (record_line (2 ^ k)) =
         Ok [("1.0.0.0", mask, 32 - k)] /\
       decode_dotted mask = Some (Z.lxor 0xffffffff (2 ^ k - 1))) /\
  fetch_ip_data_parse "apnic|CN|ipv4|1.0.2.0|1024|20110414|allocated" =
    Ok [("1.0.2.0", "255.255.252.0", 22)].
Proof.
  assert (General : forall line item k,
     all_chars is_dot line = true ->
     search cnregex line = Some item ->
     host_count item = Ok (2 ^ k) ->
     0 <= k <= 32 ->
     exists ip mask,
       starting_ip item = Ok ip /\
       fetch_ip_data_parse line = Ok [(ip, mask, 32 - k)] /\
       decode_dotted mask = Some (Z.lxor 0xffffffff (2 ^ k - 1))).
  { intros line item k Hline Hs Hn Hk.
    assert (Hpow : 1 <= 2 ^ k <= 2 ^ 32).
    { split; [|apply Z.pow_le_mono_r; lia].
      pose proof (Z.pow_pos_nonneg 2 k ltac:(lia) ltac:(lia)). lia. }
    destruct (matched_fields item (search_sound _ _ _ Hs))
      as (ip & n & Hip & Hn' & _).
    destruct (dotted_mask_decode (2 ^ k) Hpow) as (mask & Hmask & Hdec).
    destruct (route_of_positive item ip (2 ^ k) Hip Hn ltac:(lia))
      as (mask' & Hmask' & Hr).
    assert (mask' = mask) by congruence. subst mask'.
    exists ip, mask. repeat split; [exact Hip | | exact Hdec].
    rewrite fetch_ip_data_parse_line, Hs by exact Hline.
    cbn [option_list mapM].
    rewrite Hr. cbn [bind]. now rewrite Z.log2_pow2 by lia. }
  split; [exact General|]. split; [|reflexivity].
  intros k Hk.
  assert (Hrec : all_chars is_dot (record_line (2 ^ k)) = true /\
                 search cnregex (record_line (2 ^ k)) =
                   Some (record_line (2 ^ k)) /\
                 starting_ip (record_line (2 ^ k)) = Ok "1.0.0.0" /\
                 host_count (record_line (2 ^ k)) = Ok (2 ^ k)).
  { assert (Hn : (Z.to_nat k <= 32)%nat) by lia.
    rewrite <- (Z2Nat.id k) by lia.
    generalize dependent (Z.to_nat k). clear Hk. intros n Hn.
    do 33 (destruct n as [|n];
           [split; [|split; [|split]]; vm_compute; reflexivity|]).
    lia. }
  destruct Hrec as (Hline & Hs & Hip & Hn).
  destruct (General _ _ k Hline Hs Hn Hk) as (ip & mask & Hip' & Hr & Hdec).
  assert (ip = "1.0.0.0") by congruence. subst ip.
  exists mask. split; [exact Hr | exact Hdec].
Qed.

Lemma power_of_two_route_witness :
  exists ip mask,
    starting_ip "apnic|cn|ipv4|1.0.1.0|256|20110414|allocated" = Ok ip /\
    fetch_ip_data_parse "apnic|cn|ipv4|1.0.1.0|256|20110414|allocated" =
      Ok [(ip, mask, 32 - 8)] /\
    decode_dotted mask = Some (Z.lxor 0xffffffff (2 ^ 8 - 1)).
Proof.
  apply (proj1 power_of_two_route
           "apnic|cn|ipv4|1.0.1.0|256|20110414|allocated"
           "apnic|cn|ipv4|1.0.1.0|256|20110414|allocated" 8);
    [reflexivity | reflexivity | reflexivity | lia].
Defined.

(** C2, as the code has it.  A line with fewer than seven pipe-delimited
    fields is not matched by the filter, whatever its prefix, and is left
    out without an error: the extractor returns what it returns for the text
    without that line. *)
Theorem short_line_skipped :
  forall line,
    all_chars is_dot line = true ->
    (field_count line < 7)%nat ->
    matching line = false /\
    forall before after,
      Forall (fun l => all_chars is_dot l = true) before ->
      Forall (fun l => all_chars is_dot l = true) after ->
      fetch_ip_data_parse
        (Py.join (String newline "") (before ++ line :: after)) =
      fetch_ip_data_parse (Py.join (String newline "") (before ++ after)).
Proof.
  intros line Hline Hshort.
  pose proof (short_line_no_match line Hshort) as Hno.
  split; [unfold matching; now rewrite Hno|].
  intros before after Hb Ha.
  rewrite !fetch_ip_data_parse_join.
  - rewrite !flat_map_app. cbn [flat_map]. rewrite Hno. reflexivity.
  - apply Forall_app. now split.
  - apply Forall_app. split; [exact Hb | now constructor].
Qed.

Lemma short_line_skipped_witness :
  matching "apnic|cn|ipv4|1.0.1.0|256" = false /\
  forall before after,
    Forall (fun l => all_chars is_dot l = true) before ->
    Forall (fun l => all_chars is_dot l = true) after ->
    fetch_ip_data_parse
      (Py.join (String newline "")
         (before ++ "apnic|cn|ipv4|1.0.1.0|256" :: after)) =
    fetch_ip_data_parse (Py.join (String newline "") (before ++ after)).
Proof.
  apply (short_line_skipped "apnic|cn|ipv4|1.0.1.0|256");
    [reflexivity | vm_compute; lia].
Defined.

(** C2, as stated, fails: a line with the prefix of the filter and five
    fields is left out, and the extractor returns the route of the other
    line instead of reporting an error. *)
Lemma short_line_no_error :
  field_count "apnic|cn|ipv4|1.0.1.0|256" = 5%nat /\
  fetch_ip_data_parse
    ("apnic|cn|ipv4|1.0.1.0|256" ++ String newline
       "apnic|cn|ipv4|1.0.2.0|512|20110414|allocated") =
  Ok [("1.0.2.0", "255.255.254.0", 23)].
Proof. split; reflexivity. Qed.

(** C3, as the code has it.  When every matching line has a positive host
    count, the extractor returns one route for each matching line of the
    text, in the order of the lines: nothing is sorted, dropped or merged. *)
Theorem one_route_per_matching_line :
  forall data,
    (forall line item,
       In line (lines data) -> search cnregex line = Some item ->
       exists n, host_count item = Ok n /\ 1 <= n) ->
    exists routes,
      fetch_ip_data_parse data = Ok routes /\
      List.length routes = List.length (filter matching (lines data)) /\
      Forall2
        (fun line r =>
           exists item,
             search cnregex line = Some item /\ route_of_item item = Ok r)
        (filter matching (lines data)) routes.
Proof.
  intros data Hnz. rewrite fetch_ip_data_parse_lines.
  set (items := flat_map (fun l => option_list (search cnregex l)) (lines data)).
  destruct (mapM_ok route_of_item items) as (routes & Hr & HF).
  { intros item Hin. apply matched_items_in in Hin as (line & Hl & Hs).
    destruct (route_of_matched item (search_sound _ _ _ Hs))
      as [[H0 _]|(ip & n & mask & _ & _ & _ & _ & Hroute)].
    - destruct (Hnz line item Hl Hs) as (n & Hn & Hpos).
      rewrite H0 in Hn. injection Hn as <-. lia.
    - eexists. exact Hroute. }
  exists routes. split; [exact Hr|].
  pose proof (matched_items (lines data)) as HM. fold items in HM.
  split.
  - apply Forall2_length in HM, HF. congruence.
  - clear Hr Hnz. revert routes HF.
    induction HM as [|line item ls its Hs _ IH]; intros routes HF;
      inversion HF; subst; constructor.
    + exists item. now split.
    + now apply IH.
Qed.

Lemma one_route_per_matching_line_witness :
  exists routes,
    fetch_ip_data_parse
      ("apnic|cn|ipv4|1.0.2.0|512|20110414|allocated" ++ String newline
       "apnic|jp|ipv4|1.0.16.0|4096|20110412|allocated" ++ String newline
       "apnic|cn|ipv4|1.0.1.0|256|20110414|allocated") = Ok routes /\
    List.length routes = 2%nat /\
    Forall2
      (fun line r =>
         exists item,
           search cnregex line = Some item /\ route_of_item item = Ok r)
      ["apnic|cn|ipv4|1.0.2.0|512|20110414|allocated";
       "apnic|cn|ipv4|1.0.1.0|256|20110414|allocated"]
      routes.
Proof.
  apply (one_route_per_matching_line
           ("apnic|cn|ipv4|1.0.2.0|512|20110414|allocated" ++ String newline
            "apnic|jp|ipv4|1.0.16.0|4096|20110412|allocated" ++ String newline
            "apnic|cn|ipv4|1.0.1.0|256|20110414|allocated")).
  intros line item Hin Hs.
  vm_compute in Hin.
  destruct Hin as [<-|[<-|[<-|[]]]]; vm_compute in Hs;
    try discriminate Hs; injection Hs as <-;
    eexists; (split; [vm_compute; reflexivity | lia]).
Defined.

(** C3, as stated, fails: this text has one matching line and no other, and
    the extractor raises instead of returning one route. *)
Lemma zero_count_no_routes :
  List.length
    (filter matching (lines "apnic|cn|ipv4|1.0.0.0|0|20110414|allocated")) =
    1%nat /\
  fetch_ip_data_parse "apnic|cn|ipv4|1.0.0.0|0|20110414|allocated" =
    Raise ValueError.
Proof. split; reflexivity. Qed.

(** C8.  The host count of a matched record is not checked to be a power of
    two: for a matched line whose host count is positive and not a power of
    two the extractor returns a route all the same; for a count of the
    32-bit address space the prefix length comes from the truncated
    logarithm, which is then strictly below the logarithm.  The host count
    1000 gives the mask 255.255.252.24 and the prefix length 23. *)
Theorem unchecked_host_count :
  (forall line item n,
     all_chars is_dot line = true ->
     search cnregex line = Some item ->
     host_count item = Ok n ->
     1 <= n ->
     (forall k, 0 <= k -> n <> 2 ^ k) ->
     exists ip mask mask2,
       fetch_ip_data_parse line = Ok [(ip, mask, mask2)] /\
       (n <= 2 ^ 32 ->
        mask2 = 32 - Z.log2 n /\ 2 ^ Z.log2 n < n < 2 ^ (Z.log2 n + 1))) /\
  fetch_ip_data_parse "apnic|cn|ipv4|1.0.2.0|1000|20110414|allocated" =
    Ok [("1.0.2.0", "255.255.252.24", 23)].
Proof.
  split; [|reflexivity].
  intros line item n Hline Hs Hn Hpos Hnp.
  destruct (matched_fields item (search_sound _ _ _ Hs)) as (ip & n' & Hip & _).
  destruct (route_of_positive item ip n Hip Hn Hpos) as (mask & _ & Hr).
  exists ip, mask, (32 - Z.log2 n). split.
  - rewrite fetch_ip_data_parse_line, Hs by exact Hline. cbn [option_list mapM].
    now rewrite Hr.
  - intros _. split; [reflexivity|].
    pose proof (Z.log2_spec n ltac:(lia)) as [Hlo Hhi].
    pose proof (Hnp (Z.log2 n) (Z.log2_nonneg n)).
    change (Z.succ (Z.log2 n)) with (Z.log2 n + 1) in Hhi. lia.
Qed.

Lemma unchecked_host_count_witness :
  exists ip mask mask2,
    fetch_ip_data_parse "apnic|cn|ipv4|1.0.8.0|768|20110414|allocated" =
      Ok [(ip, mask, mask2)] /\
    (768 <= 2 ^ 32 ->
     mask2 = 32 - Z.log2 768 /\
     2 ^ Z.log2 768 < 768 < 2 ^ (Z.log2 768 + 1)).
Proof.
  apply (proj1 unchecked_host_count
           "apnic|cn|ipv4|1.0.8.0|768|20110414|allocated"
           "apnic|cn|ipv4|1.0.8.0|768|20110414|allocated" 768);
    [reflexivity | reflexivity | reflexivity | lia |].
  intros k Hk E.
  assert (Hl : Z.log2 768 = k) by (rewrite E; apply Z.log2_pow2; exact Hk).
  change (Z.log2 768) with 9 in Hl. subst k. discriminate E.
Defined.

(** C10.  The extractor is not total on the lines that the filter admits:
    the filter takes a host count field ["0"], for which
    [0xFFFFFFFF XOR (0 - 1)] is negative, the first slice of its
    hexadecimal form is not a hexadecimal literal, and the [ValueError] of
    [int] escapes the extractor, for a text with such a line as for the line
    alone. *)
Theorem zero_host_count_raises :
  (matching "apnic|cn|ipv4|1.0.0.0|0|20110414|allocated" = true /\
   host_count "apnic|cn|ipv4|1.0.0.0|0|20110414|allocated" = Ok 0 /\
   fetch_ip_data_parse "apnic|cn|ipv4|1.0.0.0|0|20110414|allocated" =
     Raise ValueError) /\
  Z.lxor 0xffffffff (0 - 1) < 0 /\
  octet_slices (Py.zfill 8 (Py.drop 2 (Num.hex (Z.lxor 0xffffffff (0 - 1))))) =
    ["x1"; "00"; "00"; "00"] /\
  Num.int 16 "x1" = Raise ValueError /\
  (forall data line item,
     In line (lines data) ->
     search cnregex line = Some item ->
     host_count item = Ok 0 ->
     fetch_ip_data_parse data = Raise ValueError).
Proof.
  repeat split; try reflexivity.
  intros data line item Hin Hs H0.
  rewrite fetch_ip_data_parse_lines.
  apply (mapM_raise route_of_item ValueError _ item).
  - apply in_flat_map. exists line. split; [exact Hin|].
    rewrite Hs. now left.
  - destruct (route_of_matched item (search_sound _ _ _ Hs))
      as [[_ Hr]|(ip & n & mask & _ & Hn & Hpos & _)]; [exact Hr|].
    rewrite H0 in Hn. injection Hn as <-. lia.
  - intros item' Hin'. apply matched_items_in in Hin' as (line' & _ & Hs').
    destruct (route_of_matched item' (search_sound _ _ _ Hs'))
      as [[_ Hr]|(ip & n & mask & _ & _ & _ & _ & Hr)].
    + now left.
    + right. eexists. exact Hr.
Qed.

Lemma zero_host_count_raises_witness :
  fetch_ip_data_parse
    ("apnic|cn|ipv4|1.0.1.0|256|20110414|allocated" ++ String newline
     "apnic|cn|ipv4|1.0.0.0|00|20110414|assigned") = Raise ValueError.
Proof.
  apply (proj2 (proj2 (proj2 (proj2 zero_host_count_raises)))
           _ "apnic|cn|ipv4|1.0.0.0|00|20110414|assigned"
             "apnic|cn|ipv4|1.0.0.0|00|20110414|assigned");
    [vm_compute; right; left; reflexivity | reflexivity | reflexivity].
Defined.

(** * The progress reporter *)

(** ** Comparisons and division *)

Lemma Qgtb_true x y : Qgtb x y = true <-> (y < x)%Q.
Proof.
  unfold Qgtb. rewrite negb_true_iff, <- not_true_iff_false, Qle_bool_iff.
  split; [apply Qnot_le_lt | apply Qlt_not_le].
Qed.

Lemma Qgtb_false x y : Qgtb x y = false <-> (x <= y)%Q.
Proof. unfold Qgtb. now rewrite negb_false_iff, Qle_bool_iff. Qed.

Lemma true_div_nonzero a b : ~ (b == 0)%Q -> true_div a b = Ok (a / b)%Q.
Proof.
  intros H. unfold true_div.
  destruct (Qeq_bool b 0) eqn:E; [|reflexivity].
  apply Qeq_bool_iff in E. contradiction.
Qed.

Lemma inject_Z_nonzero n : n <> 0 -> ~ (inject_Z n == 0)%Q.
Proof.
  intros H E. apply H. unfold Qeq in E. simpl in E. lia.
Qed.

(** ** The window *)

Lemma evict_app_newest now d h :
  exists h', evict now (h ++ [(now, d)]) = (h' ++ [(now, d)])%list.
Proof.
  induction h as [|[t b] h IH]; simpl.
  - assert (E : Qgtb (now - now) 10 = false) by (apply Qgtb_false; lra).
    rewrite E. now exists [].
  - destruct (Qgtb (now - t) 10).
    + exact IH.
    + now exists ((t, b) :: h).
Qed.

Lemma evict_suffix now h : exists gone, h = (gone ++ evict now h)%list.
Proof.
  induction h as [|[t b] h IH]; simpl.
  - now exists [].
  - destruct (Qgtb (now - t) 10).
    + destruct IH as (gone & E). exists ((t, b) :: gone). simpl. now f_equal.
    + now exists [].
Qed.


(** ** One turn of the loop *)

Lemma truthy_nonzero total n : truthy total = Some n -> total = Some n /\ n <> 0.
Proof.
  unfold truthy. destruct total as [m|]; [|discriminate].
  destruct (Z.eqb_spec m 0); [discriminate|].
  intros H. injection H as <-. now split.
Qed.

Lemma window_speed_value now d w :
  window_speed now d w = Ok (speed_value now d w).
Proof.
  unfold window_speed, speed_value. destruct w as [|[t0 b0] w]; [reflexivity|].
  destruct (Qgtb (now - t0) 0) eqn:E; [|reflexivity].
  apply Qgtb_true in E.
  rewrite true_div_nonzero by lra. cbn [bind].
  now rewrite true_div_nonzero by (apply inject_Z_nonzero; discriminate).
Qed.

(** A turn of the loop never raises, and this is what it computes. *)
Lemma step_value total st chunk now :
  let d := downloaded st + len chunk in
  let w := evict now (history st ++ [(now, d)]) in
  step total st chunk now =
  Ok ({| downloaded := d; history := w; chunks := chunks st ++ [chunk] |},
      {| progress := progress_value total d;
         speed_mb_s := speed_value now d w;
         filled_length := filled_value total d;
         bar := Py.replicate (Z.to_nat (filled_value total d)) "#" ++
                Py.replicate (Z.to_nat (bar_width - filled_value total d)) "-"
      |}).
Proof.
  intros d w. unfold step. fold d. fold w.
  rewrite window_speed_value. cbn [bind].
  unfold progress_value, filled_value.
  destruct (truthy total) as [n|] eqn:E; [|reflexivity].
  apply truthy_nonzero in E as [_ Hn].
  rewrite !true_div_nonzero by (now apply inject_Z_nonzero).
  reflexivity.
Qed.

Lemma len_nonneg chunk : 0 <= len chunk.
Proof. unfold len. lia. Qed.

Lemma step_cumulative total st chunk now st' o :
  cumulative st -> step total st chunk now = Ok (st', o) -> cumulative st'.
Proof.
  intros Hc H. rewrite step_value in H. injection H as <- _.
  unfold cumulative in *. cbn [downloaded history].
  pose proof (len_nonneg chunk) as Hl.
  destruct (evict_suffix now (history st ++ [(now, downloaded st + len chunk)]))
    as (gone & E).
  assert (Hall : Forall (fun s => snd s <= downloaded st + len chunk)
                   (history st ++ [(now, downloaded st + len chunk)])).
  { apply Forall_app. split.
    - eapply Forall_impl; [|exact Hc]. simpl. intros; lia.
    - repeat constructor. simpl. lia. }
  rewrite E in Hall. now apply Forall_app in Hall as [_ Hall].
Qed.

Lemma download_loop_cumulative total reads : forall st st' os,
  cumulative st -> download_loop total st reads = Ok (st', os) -> cumulative st'.
Proof.
  induction reads as [|[chunk now] reads IH]; intros st st' os Hc H; simpl in H.
  - now injection H as <- _.
  - destruct chunk as [|b chunk]; [now injection H as <- _|].
    destruct (step total st (b :: chunk) now) as [[st1 o]|] eqn:E;
      [|discriminate].
    cbn [bind] in H.
    destruct (download_loop total st1 reads) as [[st2 os2]|] eqn:E2;
      [|discriminate].
    cbn [bind] in H. injection H as <- _.
    eapply IH; [|exact E2]. eapply step_cumulative; eassumption.
Qed.

Lemma reachable_cumulative total st : reachable total st -> cumulative st.
Proof.
  intros (reads & os & H).
  eapply download_loop_cumulative; [|exact H]. constructor.
Qed.

Lemma Qdiv_nonneg a b : (0 <= a)%Q -> (0 < b)%Q -> (0 <= a / b)%Q.
Proof. intros Ha Hb. apply Qle_shift_div_l; [exact Hb | lra]. Qed.


(** ** Runs whose clock does not go backwards *)

Section Sorted.

Context {A : Type} (R : A -> A -> Prop).




End Sorted.




(** * The claims about the progress reporter *)



Lemma download_loop_total total reads : forall st,
  Forall (fun r => fst r <> []) reads ->
  exists st' os,
    download_loop total st reads = Ok (st', os) /\
    chunks st' = (chunks st ++ map fst reads)%list /\
    List.length os = List.length reads /\
    Forall (fun o => exists d,
              progress o = progress_value total d /\
              filled_length o = filled_value total d /\
              bar o =
                Py.replicate (Z.to_nat (filled_value total d)) "#" ++
                Py.replicate (Z.to_nat (bar_width - filled_value total d)) "-")
      os.
Proof.
  induction reads as [|[chunk now] reads IH]; intros st Hne.
  - exists st, []. simpl. rewrite app_nil_r. repeat split. constructor.
  - inversion Hne as [|? ? Hc Hne']; subst. simpl in Hc.
    cbn [download_loop]. destruct chunk as [|b chunk]; [contradiction|].
    rewrite step_value. cbn [bind].
    match goal with
    | |- context [download_loop total ?s reads] =>
        destruct (IH s Hne') as (st' & os & -> & Hch & Hlen & Hos)
    end.
    cbn [bind chunks] in *. eexists. eexists. split; [reflexivity|].
    repeat split.
    + rewrite Hch, <- app_assoc. reflexivity.
    + simpl. now rewrite Hlen.
    + constructor; [|exact Hos]. eexists. repeat split.
Qed.

Lemma Qdiv_le_mono a b c : (0 < c)%Q -> (a <= b)%Q -> (a / c <= b / c)%Q.
Proof.
  intros Hc Hab. apply Qle_shift_div_l; [exact Hc|].
  setoid_replace (a / c * c)%Q with a by (field; lra). exact Hab.
Qed.

(** C6, as the code has it.  After each chunk the percentage is
    [cumulativeBytes / totalBytes * 100] when the total is known and not
    zero, so that it does not decrease from one chunk to the next for a
    positive total, and 100, 200 and 300 bytes of 1000 give 10, 30 and 60;
    without a [Content-Length] header the download goes on to the last
    chunk, and the percentage and the filled part of the bar are both the
    number zero. *)
Theorem percent_complete :
  (forall total st chunk now st' o,
     step total st chunk now = Ok (st', o) ->
     (forall n, total = Some n -> n <> 0 ->
        progress o = (inject_Z (downloaded st') / inject_Z n * 100)%Q) /\
     (total = None ->
        progress o = 0%Q /\ filled_length o = 0 /\
        bar o = Py.replicate 50 "-")) /\
  (forall n st chunk now st' o chunk' now' st'' o',
     0 < n ->
     step (Some n) st chunk now = Ok (st', o) ->
     step (Some n) st' chunk' now' = Ok (st'', o') ->
     (progress o <= progress o')%Q) /\
  (forall reads,
     Forall (fun r => fst r <> []) reads ->
     exists os,
       download None reads = Ok (List.concat (map fst reads), os) /\
       List.length os = List.length reads /\
       Forall (fun o => progress o = 0%Q /\ filled_length o = 0) os) /\
  (exists data os,
     download (Some 1000)
       [(zeros 100, 0%Q); (zeros 200, 1%Q); (zeros 300, 2%Q)] = Ok (data, os) /\
     Forall2 Qeq (map progress os) [10%Q; 30%Q; 60%Q]).
Proof.
  repeat split.
  - intros n -> Hn. rewrite step_value in H. injection H as <- <-.
    cbn [progress downloaded]. unfold progress_value, truthy.
    destruct (Z.eqb_spec n 0); [contradiction | reflexivity].
  - subst total. rewrite step_value in H. now injection H as <- <-.
  - subst total. rewrite step_value in H. now injection H as <- <-.
  - subst total. rewrite step_value in H. now injection H as <- <-.
  - intros n st chunk now st' o chunk' now' st'' o' Hn H H'.
    rewrite step_value in H, H'. injection H as <- <-. injection H' as <- <-.
    cbn [progress downloaded]. unfold progress_value, truthy.
    destruct (Z.eqb_spec n 0); [lia|].
    pose proof (len_nonneg chunk').
    apply Qmult_le_compat_r; [|discriminate].
    apply Qdiv_le_mono.
    + change 0%Q with (inject_Z 0). rewrite <- Zlt_Qlt. exact Hn.
    + rewrite <- Zle_Qle. lia.
  - intros reads Hne.
    destruct (download_loop_total None reads initial_state Hne)
      as (st' & os & Hl & Hch & Hlen & Hos).
    exists os. unfold download. rewrite Hl. cbn [bind]. rewrite Hch.
    repeat split; [exact Hlen|].
    eapply Forall_impl; [|exact Hos].
    intros o (d & Hp & Hf & _). now split.
  - eexists. eexists. split; [vm_compute; reflexivity|].
    repeat constructor; reflexivity.
Qed.

Lemma percent_complete_witness :
  Qle (progress_value (Some 1000) 100) (progress_value (Some 1000) 300) /\
  exists os,
    download None [(zeros 100, 0%Q); (zeros 200, 1%Q)] =
      Ok (List.concat (map fst [(zeros 100, 0%Q); (zeros 200, 1%Q)]), os) /\
    List.length os = 2%nat /\
    Forall (fun o => progress o = 0%Q /\ filled_length o = 0) os.
Proof.
  split.
  - pose proof (step_value (Some 1000) initial_state (zeros 100) 0%Q) as E1.
    cbv zeta in E1.
    match type of E1 with
    | _ = Ok (?s, _) =>
        pose proof (step_value (Some 1000) s (zeros 200) 1%Q) as E2
    end.
    cbv zeta in E2.
    exact (proj1 (proj2 percent_complete) 1000 _ _ _ _ _ _ _ _ _
             ltac:(lia) E1 E2).
  - apply (proj1 (proj2 (proj2 percent_complete))
             [(zeros 100, 0%Q); (zeros 200, 1%Q)]).
    repeat constructor; discriminate.
Defined.

(** C6, as stated, fails on the percentage without a total: the loop hands
    the number zero to the progress line, where the specification has no
    number. *)
Lemma percent_without_total_is_zero :
  download None [(zeros 100, 0%Q)] =
    Ok (zeros 100,
        [{| progress := 0; speed_mb_s := 0; filled_length := 0;
            bar := Py.replicate 50 "-" |}]) /\
  percent_spec None 100 = None /\
  Some 0%Q <> percent_spec None 100.
Proof. repeat split. discriminate. Qed.

Lemma last_snoc {A : Type} (l : list A) (x d : A) : last (l ++ [x]) d = x.
Proof.
  induction l as [|y l IH]; [reflexivity|].
  simpl. destruct (l ++ [x])%list eqn:E; [destruct l; discriminate | exact IH].
Qed.




(** C9.  The eviction loop never empties the window: the sample of the
    current chunk is never evicted, so that the window has a front element
    when the speed is computed, a turn of the loop raises nothing, and the
    quotient of the speed is only formed over a strictly positive time. *)
Theorem window_never_empty :
  forall total st chunk now,
    exists st' o t0 b0 rest,
      step total st chunk now = Ok (st', o) /\
      history st' = evict now (history st ++ [(now, downloaded st')]) /\
      history st' = (t0, b0) :: rest /\
      last (history st') (0%Q, 0) = (now, downloaded st') /\
      window_speed now (downloaded st') (history st') = Ok (speed_mb_s o) /\
      (((now - t0 <= 0)%Q /\ speed_mb_s o = 0%Q) \/
       ((0 < now - t0)%Q /\
        true_div (inject_Z (downloaded st' - b0)) (now - t0) =
          Ok (inject_Z (downloaded st' - b0) / (now - t0))%Q /\
        speed_mb_s o =
          (inject_Z (downloaded st' - b0) / (now - t0) / inject_Z 1048576)%Q)).
Proof.
  intros total st chunk now.
  pose proof (step_value total st chunk now) as E. cbv zeta in E.
  set (d := downloaded st + len chunk) in *.
  destruct (evict_app_newest now d (history st)) as (h' & Eh).
  destruct (evict now (history st ++ [(now, d)])) as [|[t0 b0] rest] eqn:Ew.
  { destruct h'; discriminate Eh. }
  eexists _, _, t0, b0, rest. split; [exact E|].
  cbn [history downloaded speed_mb_s].
  split; [now rewrite Ew|]. split; [reflexivity|]. split.
  { rewrite Eh. apply last_snoc. }
  split; [apply window_speed_value|].
  unfold speed_value. destruct (Qgtb (now - t0) 0) eqn:Eg.
  - right. apply Qgtb_true in Eg. split; [exact Eg|]. split; [|reflexivity].
    apply true_div_nonzero. lra.
  - left. apply Qgtb_false in Eg. now split.
Qed.

(** * The claim about the platform dispatch *)

(** C4, on the code.  The selector [win], in any case of its letters, takes
    the branch that calls [generate_win], which the module does not define:
    the run ends in an unhandled [NameError], not in the message for an
    unsupported platform.  Every other selector outside the four generators
    gets that message on the standard error and the exit status 1; a
    selector given without a value ends in an [AttributeError]. *)
Theorem win_platform_raises :
  (forall m, main {| platform := Some "win"; metric := m |} = Raise NameError) /\
  (forall p m,
     Py.lower p = "win" ->
     main {| platform := Some p; metric := m |} = Raise NameError) /\
  (forall p m,
     Py.lower p <> "openvpn" -> Py.lower p <> "linux" ->
     Py.lower p <> "mac" -> Py.lower p <> "win" ->
     Py.lower p <> "android" ->
     main {| platform := Some p; metric := m |} =
     Ok (Exited 1 ("Platform " ++ p ++ " is not supported." ++ String newline ""))) /\
  (forall m, main {| platform := None; metric := m |} = Raise AttributeError).
Proof.
  repeat split.
  - intros p m E. unfold main. cbn [platform bind]. rewrite E. reflexivity.
  - intros p m H1 H2 H3 H4 H5. unfold main. cbn [platform bind].
    apply String.eqb_neq in H1, H2, H3, H4, H5.
    now rewrite H1, H2, H3, H4, H5.
Qed.

Lemma win_platform_raises_witness :
  main {| platform := Some "Win"; metric := Some 5 |} = Raise NameError /\
  main {| platform := Some "bsd"; metric := Some 5 |} =
    Ok (Exited 1 ("Platform bsd is not supported." ++ String newline "")).
Proof.
  split.
  - apply (proj1 (proj2 win_platform_raises) "Win" (Some 5)). reflexivity.
  - apply (proj1 (proj2 (proj2 win_platform_raises)) "bsd" (Some 5));
      discriminate.
Defined.

(** * Further properties of the range extractor *)

Lemma lxor_all_ones a : 0 <= a < 2 ^ 32 ->
  Z.lxor 0xffffffff a = 0xffffffff - a.
Proof.
  intros Ha. change 0xffffffff with (Z.ones 32).
  assert (Hl : Z.log2 a < 32).
  { destruct (Z.eq_dec a 0) as [->|]; [reflexivity|].
    apply Z.log2_lt_pow2; lia. }
  rewrite Z.lxor_comm, <- Z.ldiff_ones_l_low by lia.
  symmetry. apply Z.sub_nocarry_ldiff.
  apply Z.ldiff_ones_r_low; lia.
Qed.

(** X1.  The dotted mask of a host count of the 32-bit address space is the
    number [2^32 - num_ip], written as four octets. *)
Theorem mask_is_complement_of_count :
  forall item ip n,
    starting_ip item = Ok ip ->
    host_count item = Ok n ->
    1 <= n <= 2 ^ 32 ->
    exists mask,
      route_of_item item = Ok (ip, mask, 32 - Z.log2 n) /\
      decode_dotted mask = Some (2 ^ 32 - n).
Proof.
  intros item ip n Hip Hn Hr.
  destruct (dotted_mask_decode n Hr) as (mask & Hmask & Hdec).
  destruct (route_of_positive item ip n Hip Hn ltac:(lia))
    as (mask' & Hmask' & Hroute).
  assert (mask' = mask) by congruence. subst mask'.
  exists mask. split; [exact Hroute|].
  rewrite Hdec. f_equal.
  rewrite lxor_all_ones by lia. change (2 ^ 32) with 4294967296. lia.
Qed.

Lemma mask_is_complement_of_count_witness :
  exists mask,
    route_of_item "apnic|cn|ipv4|1.0.2.0|1000|20110414|allocated" =
      Ok ("1.0.2.0", mask, 32 - Z.log2 1000) /\
    decode_dotted mask = Some (2 ^ 32 - 1000).
Proof.
  apply (mask_is_complement_of_count
           "apnic|cn|ipv4|1.0.2.0|1000|20110414|allocated" "1.0.2.0" 1000);
    [reflexivity | reflexivity | split; [lia | discriminate]].
Defined.

(** X2.  For a host count that is a power of two the mask and the prefix length
    agree: among the 32 bits of the mask, exactly the [mask2] most
    significant ones are set. *)
Theorem mask_agrees_with_prefix :
  forall item ip k,
    starting_ip item = Ok ip ->
    host_count item = Ok (2 ^ k) ->
    0 <= k <= 32 ->
    exists mask mask2 m,
      route_of_item item = Ok (ip, mask, mask2) /\
      mask2 = 32 - k /\
      decode_dotted mask = Some m /\
      forall i, 0 <= i < 32 -> Z.testbit m i = (32 - mask2 <=? i).
Proof.
  intros item ip k Hip Hn Hk.
  assert (Hpow : 1 <= 2 ^ k <= 2 ^ 32).
  { split; [|apply Z.pow_le_mono_r; lia].
    pose proof (Z.pow_pos_nonneg 2 k ltac:(lia) ltac:(lia)). lia. }
  destruct (mask_is_complement_of_count item ip (2 ^ k) Hip Hn Hpow)
    as (mask & Hroute & Hdec).
  rewrite Z.log2_pow2 in Hroute by lia.
  exists mask, (32 - k), (2 ^ 32 - 2 ^ k).
  split; [exact Hroute|]. split; [reflexivity|]. split; [exact Hdec|].
  intros i Hi.
  assert (E : 2 ^ 32 - 2 ^ k = Z.shiftl (Z.ones (32 - k)) k).
  { rewrite Z.shiftl_mul_pow2, Z.ones_equiv by lia.
    replace 32 with ((32 - k) + k) at 1 by lia.
    rewrite Z.pow_add_r by lia. lia. }
  rewrite E. replace (32 - (32 - k)) with k by lia.
  destruct (Z.leb_spec k i).
  - rewrite Z.shiftl_spec by lia. apply Z.ones_spec_low. lia.
  - apply Z.shiftl_spec_low. lia.
Qed.

Lemma mask_agrees_with_prefix_witness :
  exists mask mask2 m,
    route_of_item "apnic|cn|ipv4|1.0.2.0|1024|20110414|allocated" =
      Ok ("1.0.2.0", mask, mask2) /\
    mask2 = 32 - 10 /\
    decode_dotted mask = Some m /\
    forall i, 0 <= i < 32 -> Z.testbit m i = (32 - mask2 <=? i).
Proof.
  apply (mask_agrees_with_prefix
           "apnic|cn|ipv4|1.0.2.0|1024|20110414|allocated" "1.0.2.0" 10);
    [reflexivity | reflexivity | lia].
Defined.

Lemma mapM_ok_inv {A B : Type} (f : A -> result B) l : forall vs,
  mapM f l = Ok vs -> Forall2 (fun x v => f x = Ok v) l vs.
Proof.
  induction l as [|x l IH]; intros vs H; simpl in H.
  - injection H as <-. constructor.
  - destruct (f x) as [v|] eqn:Ex; [|discriminate]. cbn [bind] in H.
    destruct (mapM f l) as [vs'|]; [|discriminate]. cbn [bind] in H.
    injection H as <-. constructor; [exact Ex | now apply IH].
Qed.

Lemma mapM_app {A B : Type} (f : A -> result B) l1 l2 :
  mapM f (l1 ++ l2) = both (mapM f l1) (mapM f l2).
Proof.
  unfold both. induction l1 as [|x l1 IH]; simpl.
  - destruct (mapM f l2); reflexivity.
  - destruct (f x); [|reflexivity]. cbn [bind]. rewrite IH.
    destruct (mapM f l1); [|reflexivity]. cbn [bind].
    destruct (mapM f l2); reflexivity.
Qed.

(** The slices of eight or more hexadecimal digits are octets. *)
Lemma octets_of_digits_range s :
  all_chars (is_digit_of 16) s = true -> (8 <= String.length s)%nat ->
  exists a b c d,
    mapM (Num.int 16) (octet_slices s) = Ok [a; b; c; d] /\
    0 <= a < 256 /\ 0 <= b < 256 /\ 0 <= c < 256 /\ 0 <= d < 256.
Proof.
  intros Hs Hl.
  destruct s as [|c0 [|c1 [|c2 [|c3 [|c4 [|c5 [|c6 [|c7 s]]]]]]]];
    simpl in Hl; try lia.
  cbn [all_chars] in Hs.
  repeat match goal with
    | H : (_ && _)%bool = true |- _ => apply andb_prop in H as [? H]
    end.
  unfold octet_slices.
  cbn [map Py.slice Py.drop Py.take Nat.add Nat.sub mapM].
  destruct (int16_digits c0 c1) as (v0 & -> & H0'); try assumption.
  destruct (int16_digits c2 c3) as (v1 & -> & H1'); try assumption.
  destruct (int16_digits c4 c5) as (v2 & -> & H2'); try assumption.
  destruct (int16_digits c6 c7) as (v3 & -> & H3'); try assumption.
  cbn [bind]. exists v0, v1, v2, v3. repeat split; lia.
Qed.

(** Whatever the host count, a dotted mask that is printed reads back as
    four octets. *)
Lemma dotted_mask_well_formed n mask : 1 <= n ->
  dotted_mask n = Ok mask ->
  exists m, decode_dotted mask = Some m /\ 0 <= m < 2 ^ 32.
Proof.
  intros Hn. unfold dotted_mask. cbv zeta.
  assert (Hm : 0 <= Z.lxor 0xffffffff (n - 1)) by (apply Z.lxor_nonneg; lia).
  set (m := Z.lxor 0xffffffff (n - 1)) in *.
  rewrite hex_nonneg by exact Hm.
  pose proof (render_digits 16 ltac:(lia) m Hm) as Hd.
  rewrite (zfill_digits 16) by exact Hd.
  destruct (octets_of_digits_range
              (Py.replicate (8 - String.length (Num.render 16 m)) "0" ++
               Num.render 16 m)) as (a & b & c & d & -> & Ha & Hb & Hc & Hd').
  - rewrite all_chars_append, Hd, all_chars_replicate; reflexivity.
  - rewrite length_append, length_replicate. lia.
  - cbn [bind]. intros H. injection H as <-.
    eexists. split; [apply decode_dotted_join; assumption|].
    change (2 ^ 32) with 4294967296. lia.
Qed.

(** X3.  Every route that the extractor returns has an address made of digits
    and dots and a mask of four octets, also for a host count that is
    not a power of two or exceeds the address space. *)
Theorem routes_well_formed :
  forall data results,
    fetch_ip_data_parse data = Ok results -> Forall route_ok results.
Proof.
  intros data results H. rewrite fetch_ip_data_parse_lines in H.
  apply mapM_ok_inv in H.
  set (items := flat_map (fun l => option_list (search cnregex l)) (lines data))
    in H.
  assert (Hm : Forall (matches cnregex) items).
  { apply Forall_forall. intros item Hin.
    apply matched_items_in in Hin as (line & _ & Hs).
    now apply search_sound in Hs. }
  induction H as [|item r items rs Hr _ IH]; [constructor|].
  inversion Hm as [|? ? Hitem Hm']; subst.
  constructor; [|now apply IH].
  destruct (cnregex_fields item Hitem)
    as (x0 & x1 & x2 & ip & cnt & date & rest & E & _ & Hne & Hip & _).
  destruct (route_of_matched item Hitem)
    as [[_ Hz]|(ip' & n & mask & Hip' & Hn & Hpos & Hmask & Hroute)];
    [congruence|].
  assert (r = (ip', mask, 32 - Z.log2 n)) by congruence. subst r.
  unfold starting_ip in Hip'. rewrite E in Hip'. injection Hip' as <-.
  repeat split; try assumption.
  now apply (dotted_mask_well_formed n).
Qed.

Lemma routes_well_formed_witness :
  Forall route_ok
    [("1.0.2.0", "255.255.252.24", 23); ("1.0.8.0", "16.0.0.0", -1)].
Proof.
  apply (routes_well_formed
           ("apnic|cn|ipv4|1.0.2.0|1000|20110414|allocated" ++ String newline
            "apnic|cn|ipv4|1.0.8.0|8589934592|20110414|allocated")).
  vm_compute. reflexivity.
Defined.

(** X4.  For a host count of the 32-bit address space the prefix length is
    between 0 and 32, and the block that it denotes holds at most the
    allocated addresses and more than half of them. *)
Theorem prefix_covers_allocation :
  forall item ip n,
    starting_ip item = Ok ip ->
    host_count item = Ok n ->
    1 <= n <= 2 ^ 32 ->
    exists mask mask2,
      route_of_item item = Ok (ip, mask, mask2) /\
      0 <= mask2 <= 32 /\
      2 ^ (32 - mask2) <= n < 2 * 2 ^ (32 - mask2).
Proof.
  intros item ip n Hip Hn Hr.
  destruct (route_of_positive item ip n Hip Hn ltac:(lia))
    as (mask & _ & Hroute).
  exists mask, (32 - Z.log2 n). split; [exact Hroute|].
  pose proof (Z.log2_nonneg n).
  assert (Z.log2 n <= 32).
  { change 32 with (Z.log2 (2 ^ 32)) at 1. apply Z.log2_le_mono. lia. }
  split; [lia|].
  replace (32 - (32 - Z.log2 n)) with (Z.log2 n) by lia.
  pose proof (Z.log2_spec n ltac:(lia)) as [Hlo Hhi].
  rewrite Z.pow_succ_r in Hhi by assumption. lia.
Qed.

Lemma prefix_covers_allocation_witness :
  exists mask mask2,
    route_of_item "apnic|cn|ipv4|1.0.2.0|1000|20110414|allocated" =
      Ok ("1.0.2.0", mask, mask2) /\
    0 <= mask2 <= 32 /\
    2 ^ (32 - mask2) <= 1000 < 2 * 2 ^ (32 - mask2).
Proof.
  apply (prefix_covers_allocation
           "apnic|cn|ipv4|1.0.2.0|1000|20110414|allocated" "1.0.2.0" 1000);
    [reflexivity | reflexivity | split; [lia | discriminate]].
Defined.

(** ** Texts in pieces *)

Lemma cons_head_app c l1 l2 :
  l1 <> [] -> cons_head c (l1 ++ l2) = (cons_head c l1 ++ l2)%list.
Proof. destruct l1; [contradiction | reflexivity]. Qed.

Lemma split_append sep a b :
  Py.split sep (a ++ String sep b) = (Py.split sep a ++ Py.split sep b)%list.
Proof.
  induction a as [|c a IH]; cbn [append].
  - now rewrite split_sep.
  - destruct (Ascii.eqb c sep) eqn:E.
    + apply Ascii.eqb_eq in E. subst c. rewrite !split_sep, IH. reflexivity.
    + assert (Hc : is_not sep c = true) by (unfold is_not; now rewrite E).
      rewrite !split_char, IH by exact Hc.
      apply cons_head_app, split_nonempty.
Qed.

(** X5.  The extractor works line by line: for two texts put together with a
    line feed it returns the routes of the first followed by those of the
    second, and it raises when it raises for one of them. *)
Theorem extractor_of_two_texts :
  forall data1 data2,
    fetch_ip_data_parse (data1 ++ String newline data2) =
    both (fetch_ip_data_parse data1) (fetch_ip_data_parse data2).
Proof.
  intros data1 data2. rewrite !fetch_ip_data_parse_lines. unfold lines.
  change "010"%char with newline.
  rewrite split_append, flat_map_app. apply mapM_app.
Qed.

Lemma flat_map_matching ls :
  flat_map (fun l => option_list (search cnregex l)) (filter matching ls) =
  flat_map (fun l => option_list (search cnregex l)) ls.
Proof.
  induction ls as [|l ls IH]; [reflexivity|]. cbn [filter flat_map].
  unfold matching at 1. destruct (search cnregex l) eqn:E.
  - cbn [flat_map]. now rewrite E, IH.
  - exact IH.
Qed.

Lemma Forall_filter {A : Type} (P : A -> Prop) f l :
  Forall P l -> Forall P (filter f l).
Proof.
  induction 1 as [|x l Hx _ IH]; simpl; [constructor|].
  destruct (f x); [now constructor | exact IH].
Qed.

(** X6.  Only the lines that the filter matches count: the extractor returns for
    a text what it returns for its matching lines alone. *)
Theorem only_matching_lines_count :
  forall data,
    fetch_ip_data_parse data =
    fetch_ip_data_parse
      (Py.join (String newline "") (filter matching (lines data))).
Proof.
  intros data. rewrite fetch_ip_data_parse_join.
  - rewrite flat_map_matching. apply fetch_ip_data_parse_lines.
  - apply Forall_filter. apply (split_fields_free newline).
Qed.

(** ** Letter case *)

Lemma lower_char_idem c : Py.lower_char (Py.lower_char c) = Py.lower_char c.
Proof. destruct c as [[] [] [] [] [] [] [] []]; reflexivity. Qed.

Lemma lower_char_digit_or_dot c :
  is_digit_or_dot (Py.lower_char c) = is_digit_or_dot c.
Proof. destruct c as [[] [] [] [] [] [] [] []]; reflexivity. Qed.

Lemma lower_char_digit c : is_digit (Py.lower_char c) = is_digit c.
Proof. destruct c as [[] [] [] [] [] [] [] []]; reflexivity. Qed.

Lemma lower_char_dot c : is_dot (Py.lower_char c) = is_dot c.
Proof. destruct c as [[] [] [] [] [] [] [] []]; reflexivity. Qed.

Lemma lower_char_pipe c : Ascii.eqb (Py.lower_char c) "|" = Ascii.eqb c "|".
Proof. destruct c as [[] [] [] [] [] [] [] []]; reflexivity. Qed.

Lemma lower_char_digit_id c : is_digit_or_dot c = true -> Py.lower_char c = c.
Proof.
  destruct c as [[] [] [] [] [] [] [] []]; intros H;
    solve [reflexivity | discriminate H].
Qed.

Lemma lower_digits_id s :
  all_chars is_digit_or_dot s = true -> Py.lower s = s.
Proof.
  induction s as [|c s IH]; simpl; [reflexivity|].
  intros H. apply andb_prop in H as [Hc Hs].
  now rewrite (lower_char_digit_id c Hc), IH.
Qed.

Lemma eq_ci_lower c c' : eq_ci c (Py.lower_char c') = eq_ci c c'.
Proof. unfold eq_ci. now rewrite lower_char_idem. Qed.

Lemma take_lower n : forall s, Py.take n (Py.lower s) = Py.lower (Py.take n s).
Proof.
  induction n as [|n IH]; intros [|c s]; simpl; try reflexivity.
  now rewrite IH.
Qed.

Lemma star_lower cls k :
  (forall c, cls (Py.lower_char c) = cls c) ->
  (forall s, k (Py.lower s) = k s) ->
  forall s, star cls k (Py.lower s) = star cls k s.
Proof.
  intros Hcls Hk. induction s as [|c s IH]; simpl.
  - apply (Hk "").
  - rewrite Hcls, IH. pose proof (Hk (String c s)) as E.
    cbn [Py.lower] in E. now rewrite E.
Qed.

Lemma match_pat_lower p : Forall atom_caseless p ->
  forall s, match_pat p (Py.lower s) = match_pat p s.
Proof.
  induction 1 as [|a p Ha _ IH]; intros s; [reflexivity|].
  destruct a as [c|cls|cls]; simpl in Ha |- *.
  - destruct s as [|c' s]; simpl; [reflexivity|].
    now rewrite eq_ci_lower, IH.
  - destruct s as [|c' s]; simpl; [reflexivity|].
    now rewrite Ha, star_lower.
  - now apply star_lower.
Qed.

Lemma findall_from_lower p : Forall atom_caseless p ->
  forall s k,
    findall_from p k (Py.lower s) = map Py.lower (findall_from p k s).
Proof.
  intros Hp. induction s as [|c s IH]; intros k.
  - simpl. destruct k; [|reflexivity]. now destruct (match_pat p "").
  - cbn [Py.lower findall_from]. destruct k as [|k]; [|apply IH].
    pose proof (match_pat_lower p Hp (String c s)) as E.
    cbn [Py.lower] in E. rewrite E.
    destruct (match_pat p (String c s)) as [n|]; [|apply IH].
    cbn [map]. rewrite IH. f_equal.
    apply (take_lower n (String c s)).
Qed.

Lemma cnregex_caseless : Forall atom_caseless cnregex.
Proof.
  unfold cnregex, lit. cbn [list_ascii_of_string map app].
  repeat constructor; intros c; simpl;
    solve [apply lower_char_digit_or_dot | apply lower_char_digit
          | apply lower_char_dot].
Qed.

Lemma split_lower s :
  Py.split "|" (Py.lower s) = map Py.lower (Py.split "|" s).
Proof.
  induction s as [|c s IH]; [reflexivity|].
  cbn [Py.lower Py.split]. rewrite lower_char_pipe, IH.
  destruct (Ascii.eqb c "|"); [reflexivity|].
  pose proof (split_nonempty "|" s).
  destruct (Py.split "|" s); [contradiction | reflexivity].
Qed.

Lemma digit_is_digit_or_dot c : is_digit c = true -> is_digit_or_dot c = true.
Proof. unfold is_digit_or_dot. now intros ->. Qed.

Lemma route_of_item_lower item : matches cnregex item ->
  route_of_item (Py.lower item) = route_of_item item.
Proof.
  intros H.
  destruct (cnregex_fields item H)
    as (x0 & x1 & x2 & ip & cnt & date & rest & E & _ & _ & Hip & _ & Hcnt).
  rewrite !route_of_item_unfold. unfold starting_ip, host_count.
  rewrite split_lower, E. cbn [map Py.index nth_error].
  rewrite (lower_digits_id ip Hip).
  rewrite (lower_digits_id cnt)
    by (apply (all_chars_impl is_digit); [exact digit_is_digit_or_dot | exact Hcnt]).
  reflexivity.
Qed.

(** X7.  The filter and the extractor do not tell upper case from lower case:
    the routes of a text are those of the text in lower case. *)
Theorem extractor_ignores_case :
  forall data, fetch_ip_data_parse (Py.lower data) = fetch_ip_data_parse data.
Proof.
  intros data. unfold fetch_ip_data_parse, findall. cbv zeta.
  rewrite (findall_from_lower cnregex cnregex_caseless).
  assert (Hm : Forall (matches cnregex) (findall_from cnregex 0 data)).
  { apply Forall_forall. intros item Hin.
    change (findall_from cnregex 0 data) with (findall cnregex data) in Hin.
    rewrite findall_lines in Hin.
    apply matched_items_in in Hin as (line & _ & Hs).
    now apply search_sound in Hs. }
  induction Hm as [|item items Hitem _ IH]; [reflexivity|].
  cbn [map mapM]. now rewrite (route_of_item_lower item Hitem), IH.
Qed.

(** ** What precedes a record in its line *)

(** X8.  The filter is not tied to the start of a line: text without the letter
    [a], in either case, in front of a text changes nothing to the routes,
    so that a record behind a comment mark yields its route all the same. *)
Theorem filter_is_not_anchored :
  forall junk data,
    all_chars (fun c => negb (eq_ci "a" c)) junk = true ->
    fetch_ip_data_parse (junk ++ data) = fetch_ip_data_parse data.
Proof.
  intros junk data Hj. unfold fetch_ip_data_parse, findall. cbv zeta.
  f_equal. induction junk as [|c junk IH]; [reflexivity|].
  cbn [all_chars] in Hj. apply andb_prop in Hj as [Hc Hj].
  apply negb_true_iff in Hc.
  cbn [append findall_from].
  assert (E : match_pat cnregex (String c (junk ++ data)) = None).
  { unfold cnregex, lit. cbn [list_ascii_of_string map app match_pat].
    now rewrite Hc. }
  rewrite E. now apply IH.
Qed.

Lemma filter_is_not_anchored_witness :
  fetch_ip_data_parse
    ("# " ++ "apnic|cn|ipv4|1.0.1.0|256|20110414|allocated") =
  fetch_ip_data_parse "apnic|cn|ipv4|1.0.1.0|256|20110414|allocated".
Proof.
  apply (filter_is_not_anchored "# "). reflexivity.
Defined.

(** * Further properties of the progress reporter *)

Lemma len_app (a b : bytes) : len (a ++ b)%list = len a + len b.
Proof. unfold len. rewrite length_app. lia. Qed.

Lemma download_loop_run total reads : forall st,
  exists st' os,
    download_loop total st reads = Ok (st', os) /\
    chunks st' = (chunks st ++ received reads)%list /\
    List.length os = List.length (received reads) /\
    downloaded st' = downloaded st + len (List.concat (received reads)) /\
    exists gone,
      (history st ++ samples_from (downloaded st) reads)%list =
      (gone ++ history st')%list.
Proof.
  induction reads as [|[chunk now] reads IH]; intros st.
  - exists st, []. cbn. rewrite !app_nil_r, Z.add_0_r.
    repeat split. now exists [].
  - destruct chunk as [|b chunk].
    + exists st, []. cbn. rewrite !app_nil_r, Z.add_0_r.
      repeat split. now exists [].
    + cbn [download_loop received samples_from].
      rewrite step_value. cbn [bind].
      set (d := downloaded st + len (b :: chunk)).
      match goal with
      | |- context [download_loop total ?s reads] =>
          destruct (IH s) as (st' & os & -> & Hch & Hlen & Hd & gone & Hg)
      end.
      cbn [bind chunks downloaded history] in *.
      exists st', (
        {| progress := progress_value total d;
           speed_mb_s := speed_value now d
                           (evict now (history st ++ [(now, d)]));
           filled_length := filled_value total d;
           bar := Py.replicate (Z.to_nat (filled_value total d)) "#" ++
                  Py.replicate (Z.to_nat (bar_width - filled_value total d)) "-"
        |} :: os).
      split; [reflexivity|]. split; [rewrite Hch, <- app_assoc; reflexivity|].
      split; [simpl; now rewrite Hlen|]. split.
      * rewrite Hd. cbn [List.concat]. rewrite len_app. unfold d. lia.
      * destruct (evict_suffix now (history st ++ [(now, d)])) as (gone' & Eg).
        exists (gone' ++ gone)%list.
        change ((now, d) :: samples_from d reads)
          with ([(now, d)] ++ samples_from d reads)%list.
        rewrite (app_assoc (history st)), Eg, <- app_assoc, Hg.
        apply app_assoc.
Qed.

(** X9.  The download loop raises nothing and returns the received chunks end to
    end, in the order of their arrival and one observation for each chunk;
    the bytes depend neither on the announced total nor on the clock, and
    nothing that follows an empty chunk is read. *)
Theorem download_returns_received_bytes :
  forall total reads,
    exists os,
      download total reads = Ok (List.concat (received reads), os) /\
      List.length os = List.length (received reads).
Proof.
  intros total reads.
  destruct (download_loop_run total reads initial_state)
    as (st' & os & Hl & Hch & Hlen & _).
  exists os. unfold download. rewrite Hl. cbn [bind]. rewrite Hch.
  split; [reflexivity | exact Hlen].
Qed.

(** X10.  In every state of the loop [downloaded] is the number of bytes of the
    chunks kept so far, and it is not negative. *)
Theorem downloaded_counts_the_bytes :
  forall total st,
    reachable total st ->
    downloaded st = len (List.concat (chunks st)) /\ 0 <= downloaded st.
Proof.
  intros total st (reads & os & H).
  destruct (download_loop_run total reads initial_state)
    as (st' & os' & Hl & Hch & _ & Hd & _).
  rewrite H in Hl. injection Hl as <- <-.
  cbn in Hch, Hd. rewrite Hch, Hd. split; [reflexivity | apply len_nonneg].
Qed.

Lemma downloaded_counts_the_bytes_witness :
  downloaded
    {| downloaded := 300; history := [(0%Q, 100); (4%Q, 300)];
       chunks := [zeros 100; zeros 200] |} =
  len (List.concat [zeros 100; zeros 200]) /\
  0 <= 300.
Proof.
  apply (downloaded_counts_the_bytes None).
  exists [(zeros 100, 0%Q); (zeros 200, 4%Q)]. eexists.
  vm_compute. reflexivity.
Defined.

(** X11.  Eviction only takes samples from the front: after any run the window is
    the tail end of the sequence of all samples taken, in their order. *)
Theorem window_is_tail_of_samples :
  forall total reads st os,
    download_loop total initial_state reads = Ok (st, os) ->
    exists gone, samples_from 0 reads = (gone ++ history st)%list.
Proof.
  intros total reads st os H.
  destruct (download_loop_run total reads initial_state)
    as (st' & os' & Hl & _ & _ & _ & gone & Hg).
  rewrite H in Hl. injection Hl as <- <-.
  exists gone. exact Hg.
Qed.

Lemma window_is_tail_of_samples_witness :
  exists gone,
    samples_from 0 [(zeros 100, 0%Q); (zeros 200, 4%Q); (zeros 50, 12%Q)] =
    (gone ++ [(4%Q, 300); (12%Q, 350)])%list.
Proof.
  assert (H : exists os,
            download_loop None initial_state
              [(zeros 100, 0%Q); (zeros 200, 4%Q); (zeros 50, 12%Q)] =
            Ok ({| downloaded := 350;
                   history := [(4%Q, 300); (12%Q, 350)];
                   chunks := [zeros 100; zeros 200; zeros 50] |}, os))
    by (eexists; vm_compute; reflexivity).
  destruct H as (os & H).
  exact (window_is_tail_of_samples _ _ _ _ H).
Defined.

Lemma Qdiv_pos a b : (0 < a)%Q -> (0 < b)%Q -> (0 < a / b)%Q.
Proof.
  intros Ha Hb. apply Qlt_shift_div_l; [exact Hb | lra].
Qed.

(** X12.  After a non-empty chunk the speed is positive exactly when time has
    passed since the oldest sample of the window, and zero otherwise. *)
Theorem speed_positive_iff_time_passed :
  forall total st chunk now st' o t0 b0 rest,
    reachable total st ->
    chunk <> [] ->
    step total st chunk now = Ok (st', o) ->
    history st' = (t0, b0) :: rest ->
    ((0 < speed_mb_s o)%Q <-> (0 < now - t0)%Q) /\
    ((now - t0 <= 0)%Q -> speed_mb_s o = 0%Q).
Proof.
  intros total st chunk now st' o t0 b0 rest Hr Hne H Hw.
  pose proof (reachable_cumulative _ _ Hr) as Hc.
  rewrite step_value in H. injection H as <- <-.
  cbn [history speed_mb_s] in *.
  set (d := downloaded st + len chunk) in *.
  rewrite Hw. unfold speed_value.
  destruct (Qgtb (now - t0) 0) eqn:Eg.
  - apply Qgtb_true in Eg. split; [|intros; lra].
    split; [intros _; exact Eg|]. intros _.
    assert (Hb : b0 < d).
    { destruct (evict_suffix now (history st ++ [(now, d)])) as (gone & Es).
      rewrite Hw in Es.
      assert (Hin : In (t0, b0) (history st ++ [(now, d)]))
        by (rewrite Es; apply in_or_app; right; now left).
      apply in_app_or in Hin as [Hin|[Hin|[]]].
      - unfold cumulative in Hc. rewrite Forall_forall in Hc.
        apply Hc in Hin. simpl in Hin.
        assert (0 < len chunk).
        { unfold len. destruct chunk; [contradiction | simpl; lia]. }
        unfold d. lia.
      - injection Hin as <- _. lra. }
    apply Qdiv_pos; [apply Qdiv_pos|]; try exact Eg; try reflexivity.
    change 0%Q with (inject_Z 0). rewrite <- Zlt_Qlt. lia.
  - apply Qgtb_false in Eg. split; [|reflexivity].
    split; intros; lra.
Qed.

Lemma speed_positive_iff_time_passed_witness :
  exists o,
    step None
      {| downloaded := 300; history := [(0%Q, 100); (4%Q, 300)];
         chunks := [zeros 100; zeros 200] |}
      (zeros 50) 12%Q =
    Ok ({| downloaded := 350; history := [(4%Q, 300); (12%Q, 350)];
           chunks := [zeros 100; zeros 200; zeros 50] |}, o) /\
    ((0 < speed_mb_s o)%Q <-> (0 < 12 - 4)%Q) /\
    ((12 - 4 <= 0)%Q -> speed_mb_s o = 0%Q).
Proof.
  assert (R : reachable None
                {| downloaded := 300; history := [(0%Q, 100); (4%Q, 300)];
                   chunks := [zeros 100; zeros 200] |})
    by (exists [(zeros 100, 0%Q); (zeros 200, 4%Q)]; eexists;
        vm_compute; reflexivity).
  assert (E : exists o,
            step None
              {| downloaded := 300; history := [(0%Q, 100); (4%Q, 300)];
                 chunks := [zeros 100; zeros 200] |}
              (zeros 50) 12%Q =
            Ok ({| downloaded := 350; history := [(4%Q, 300); (12%Q, 350)];
                   chunks := [zeros 100; zeros 200; zeros 50] |}, o))
    by (eexists; vm_compute; reflexivity).
  destruct E as (o & E). exists o. split; [exact E|].
  assert (Hne : zeros 50 <> []) by (intros H; vm_compute in H; discriminate H).
  apply (speed_positive_iff_time_passed _ _ _ _ _ _ _ _ _ R Hne E eq_refl).
Defined.

Lemma int_of_Q_div a n : n <> 0 ->
  int_of_Q (inject_Z a / inject_Z n) = Z.quot a n.
Proof.
  intros Hn. unfold int_of_Q, Qdiv, Qmult, Qinv, inject_Z.
  destruct n as [|p|p]; [contradiction| |]; cbn [Qnum Qden].
  - now rewrite Z.mul_1_r, Pos.mul_1_l.
  - rewrite Pos.mul_1_l.
    replace (a * Z.neg 1) with (- a) by lia.
    change (Z.neg p) with (- Z.pos p).
    rewrite Z.quot_opp_l, Z.quot_opp_r by lia. reflexivity.
Qed.

Lemma length_replicate_append n m c c' :
  String.length (Py.replicate n c ++ Py.replicate m c') = (n + m)%nat.
Proof. now rewrite length_append, !length_replicate. Qed.

Lemma bar_shape_value n d : 0 < n -> 0 <= d <= n ->
  (0 <= progress_value (Some n) d <= 100)%Q /\
  filled_value (Some n) d = 50 * d / n /\
  0 <= filled_value (Some n) d <= 50 /\
  String.length
    (Py.replicate (Z.to_nat (filled_value (Some n) d)) "#" ++
     Py.replicate (Z.to_nat (bar_width - filled_value (Some n) d)) "-") =
    50%nat /\
  Py.replicate (Z.to_nat (filled_value (Some n) d)) "#" ++
  Py.replicate (Z.to_nat (bar_width - filled_value (Some n) d)) "-" =
  Py.replicate (Z.to_nat (filled_value (Some n) d)) "#" ++
  Py.replicate (50 - Z.to_nat (filled_value (Some n) d)) "-".
Proof.
  intros Hn Hd.
  assert (Hf : filled_value (Some n) d = 50 * d / n).
  { unfold filled_value, truthy, bar_width.
    destruct (Z.eqb_spec n 0); [lia|].
    rewrite int_of_Q_div by lia. apply Z.quot_div_nonneg; lia. }
  assert (Hrange : 0 <= 50 * d / n <= 50).
  { split; [apply Z.div_pos; lia|].
    apply Z.div_le_upper_bound; lia. }
  rewrite Hf. unfold bar_width.
  split; [|split; [reflexivity|split; [exact Hrange|split]]].
  - unfold progress_value, truthy. destruct (Z.eqb_spec n 0); [lia|].
    assert (Hnq : (0 < inject_Z n)%Q)
      by (change 0%Q with (inject_Z 0); rewrite <- Zlt_Qlt; lia).
    assert (Hdq : (0 <= inject_Z d)%Q)
      by (change 0%Q with (inject_Z 0); rewrite <- Zle_Qle; lia).
    assert (Hdn : (inject_Z d <= inject_Z n)%Q) by (rewrite <- Zle_Qle; lia).
    split.
    + apply Qmult_le_0_compat; [now apply Qdiv_nonneg | discriminate].
    + assert (E1 : (inject_Z n / inject_Z n == 1)%Q)
        by (apply Qmult_inv_r, inject_Z_nonzero; lia).
      apply Qle_trans with (inject_Z n / inject_Z n * 100)%Q.
      * apply Qmult_le_compat_r; [now apply Qdiv_le_mono | discriminate].
      * rewrite E1. discriminate.
  - rewrite length_replicate_append.
    generalize dependent (50 * d / n). intros; lia.
  - f_equal. f_equal. generalize dependent (50 * d / n). intros; lia.
Qed.

(** X13.  With a known total that the download does not exceed, the percentage
    is between 0 and 100, the filled part of the bar is the whole number of
    fiftieths downloaded, and the bar is 50 characters wide: that many
    [#], then [-]. *)
Theorem progress_bar_shape :
  forall n st chunk now st' o,
    reachable (Some n) st ->
    0 < n ->
    downloaded st + len chunk <= n ->
    step (Some n) st chunk now = Ok (st', o) ->
    (0 <= progress o <= 100)%Q /\
    filled_length o = 50 * downloaded st' / n /\
    0 <= filled_length o <= 50 /\
    String.length (bar o) = 50%nat /\
    bar o =
      Py.replicate (Z.to_nat (filled_length o)) "#" ++
      Py.replicate (50 - Z.to_nat (filled_length o)) "-".
Proof.
  intros n st chunk now st' o Hr Hn Hle H.
  destruct (downloaded_counts_the_bytes _ _ Hr) as [_ Hd0].
  pose proof (len_nonneg chunk) as Hl.
  rewrite step_value in H. injection H as <- <-.
  exact (bar_shape_value n (downloaded st + len chunk) Hn ltac:(lia)).
Qed.

Lemma progress_bar_shape_witness :
  exists st' o,
    step (Some 1000) initial_state (zeros 130) 0%Q = Ok (st', o) /\
    (0 <= progress o <= 100)%Q /\
    filled_length o = 50 * downloaded st' / 1000 /\
    0 <= filled_length o <= 50 /\
    String.length (bar o) = 50%nat /\
    bar o =
      Py.replicate (Z.to_nat (filled_length o)) "#" ++
      Py.replicate (50 - Z.to_nat (filled_length o)) "-".
Proof.
  pose proof (step_value (Some 1000) initial_state (zeros 130) 0%Q) as E.
  cbv zeta in E.
  assert (R : reachable (Some 1000) initial_state)
    by (exists [], []; reflexivity).
  eexists _, _. split; [exact E|].
  apply (progress_bar_shape 1000 initial_state (zeros 130) 0%Q _ _ R
           ltac:(lia) ltac:(vm_compute; discriminate) E).
Defined.

(** * A further property of the platform dispatch *)

(** X14.  The main block enters a generator exactly when the selector, in lower
    case, is the name of that generator, and it hands the metric on
    unchanged. *)
Theorem dispatch_by_name :
  forall p m g m',
    main {| platform := Some p; metric := m |} = Ok (Called g m') <->
    Py.lower p = generator_name g /\ m' = m.
Proof.
  intros p m g m'. unfold main. cbn [platform metric bind].
  destruct (String.eqb_spec (Py.lower p) "openvpn") as [E|N1].
  { rewrite E. split.
    - intros H. injection H as <- <-. now split.
    - intros [Hg ->]. destruct g; try discriminate Hg. reflexivity. }
  destruct (String.eqb_spec (Py.lower p) "linux") as [E|N2].
  { rewrite E. split.
    - intros H. injection H as <- <-. now split.
    - intros [Hg ->]. destruct g; try discriminate Hg. reflexivity. }
  destruct (String.eqb_spec (Py.lower p) "mac") as [E|N3].
  { rewrite E. split.
    - intros H. injection H as <- <-. now split.
    - intros [Hg ->]. destruct g; try discriminate Hg. reflexivity. }
  destruct (String.eqb_spec (Py.lower p) "win") as [E|N4].
  { rewrite E. split; [discriminate|].
    intros [Hg _]. destruct g; discriminate Hg. }
  destruct (String.eqb_spec (Py.lower p) "android") as [E|N5].
  { rewrite E. split.
    - intros H. injection H as <- <-. now split.
    - intros [Hg ->]. destruct g; try discriminate Hg. reflexivity. }
  split; [discriminate|].
  intros [Hg _]. destruct g; simpl in Hg; contradiction.
Qed.

(** * The generators *)

(** ** Plain words *)

Lemma plain_not_space s :
  all_chars is_plain s = true -> all_chars (is_not " ") s = true.
Proof.
  apply all_chars_impl. intros c. unfold is_plain, is_not.
  destruct (Ascii.eqb c " "); [discriminate | reflexivity].
Qed.

Lemma plain_not_newline s :
  all_chars is_plain s = true -> all_chars (is_not newline) s = true.
Proof.
  apply all_chars_impl. intros c. unfold is_plain, is_not.
  destruct (Ascii.eqb c newline); [|reflexivity].
  rewrite orb_true_r. discriminate.
Qed.

Lemma digit_or_dot_plain s :
  all_chars is_digit_or_dot s = true -> all_chars is_plain s = true.
Proof.
  apply all_chars_impl. intros c H. unfold is_plain.
  destruct (Ascii.eqb_spec c " ") as [->|_]; [discriminate H|].
  destruct (Ascii.eqb_spec c newline) as [->|_]; [discriminate H|reflexivity].
Qed.

Lemma digit10_digit_or_dot c :
  is_digit_of 10 c = true -> is_digit_or_dot c = true.
Proof.
  destruct c as [[] [] [] [] [] [] [] []]; intros H;
    solve [reflexivity | discriminate H].
Qed.

Lemma str_digits n : 0 <= n -> all_chars is_digit_or_dot (Num.str n) = true.
Proof.
  intros H. rewrite str_nonneg by exact H.
  apply (all_chars_impl (is_digit_of 10)); [exact digit10_digit_or_dot|].
  apply render_digits; lia.
Qed.

Lemma str_plain n : all_chars is_plain (Num.str n) = true.
Proof.
  destruct (Z_lt_le_dec n 0) as [Hneg|Hpos].
  - unfold Num.str. destruct (Z.ltb_spec n 0); [|lia].
    cbn [append all_chars]. rewrite <- str_nonneg by lia.
    now rewrite (digit_or_dot_plain _ (str_digits (- n) ltac:(lia))).
  - apply digit_or_dot_plain, str_digits, Hpos.
Qed.

Lemma format_metric_plain metric :
  all_chars is_plain (format_metric metric) = true.
Proof. destruct metric; [apply str_plain | reflexivity]. Qed.

Lemma dotted_mask_digits n mask : 1 <= n ->
  dotted_mask n = Ok mask -> all_chars is_digit_or_dot mask = true.
Proof.
  intros Hn. unfold dotted_mask. cbv zeta.
  assert (Hm : 0 <= Z.lxor 0xffffffff (n - 1)) by (apply Z.lxor_nonneg; lia).
  set (m := Z.lxor 0xffffffff (n - 1)) in *.
  rewrite hex_nonneg by exact Hm.
  pose proof (render_digits 16 ltac:(lia) m Hm) as Hd.
  rewrite (zfill_digits 16) by exact Hd.
  destruct (octets_of_digits_range
              (Py.replicate (8 - String.length (Num.render 16 m)) "0" ++
               Num.render 16 m)) as (a & b & c & d & -> & Ha & Hb & Hc & Hd').
  - rewrite all_chars_append, Hd, all_chars_replicate; reflexivity.
  - rewrite length_append, length_replicate. lia.
  - cbn [bind]. intros H. injection H as <-.
    cbn [map Py.join].
    repeat first
      [ rewrite all_chars_append
      | rewrite str_digits by lia
      | progress cbn [all_chars append andb] ].
    reflexivity.
Qed.

(** The address and the mask of every route of the extractor are made of
    digits and dots. *)
Lemma routes_plain data results :
  fetch_ip_data_parse data = Ok results -> Forall route_plain results.
Proof.
  intros H. rewrite fetch_ip_data_parse_lines in H.
  apply mapM_ok_inv in H.
  set (items := flat_map (fun l => option_list (search cnregex l)) (lines data))
    in H.
  assert (Hm : Forall (matches cnregex) items).
  { apply Forall_forall. intros item Hin.
    apply matched_items_in in Hin as (line & _ & Hs).
    now apply search_sound in Hs. }
  induction H as [|item r items rs Hr _ IH]; [constructor|].
  inversion Hm as [|? ? Hitem Hm']; subst.
  constructor; [|now apply IH].
  destruct (cnregex_fields item Hitem)
    as (x0 & x1 & x2 & ip & cnt & date & rest & E & _ & Hne & Hip & _).
  destruct (route_of_matched item Hitem)
    as [[_ Hz]|(ip' & n & mask & Hip' & Hn & Hpos & Hmask & Hroute)];
    [congruence|].
  assert (r = (ip', mask, 32 - Z.log2 n)) by congruence. subst r.
  unfold starting_ip in Hip'. rewrite E in Hip'. injection Hip' as <-.
  split; [exact Hip|]. now apply (dotted_mask_digits n).
Qed.

(** ** Scripts, line by line *)

Lemma prefix_append p s : String.prefix p (p ++ s) = true.
Proof.
  induction p as [|c p IH]; simpl; [now destruct s|].
  destruct (ascii_dec c c); [exact IH | contradiction].
Qed.

Lemma drop_append p s : Py.drop (String.length p) (p ++ s) = s.
Proof. induction p as [|c p IH]; simpl; [reflexivity | exact IH]. Qed.

Lemma commands_append command a b :
  commands command (a ++ String newline b) =
  (commands command a ++ commands command b)%list.
Proof. unfold commands. now rewrite split_append, flat_map_app. Qed.

Lemma commands_written command words (results : list route) tail :
  Forall (fun r => all_chars (is_not newline) (command ++ words r) = true)
    results ->
  commands command (written (fun r => command ++ words r) results ++ tail) =
  (map (fun r => Py.split " " (words r)) results ++ commands command tail)%list.
Proof.
  induction 1 as [|r results Hr _ IH]; [reflexivity|].
  cbn [written fold_right map].
  fold (written (fun r => command ++ words r) results).
  set (W := written (fun r => command ++ words r) results) in *.
  replace ((((command ++ words r) ++ nl) ++ W) ++ tail)
    with ((command ++ words r) ++ String newline (W ++ tail))
    by (unfold nl; rewrite !append_assoc; reflexivity).
  unfold commands at 1. rewrite split_app_sep by exact Hr.
  cbn [flat_map]. rewrite prefix_append, drop_append.
  cbn [app]. f_equal. exact IH.
Qed.

Lemma fold_written (up_line down_line : route -> string) step results :
  (forall up down r,
     step (up, down) r = (up ++ (up_line r ++ nl), down ++ (down_line r ++ nl))) ->
  forall up down,
    fold_left step results (up, down) =
    (up ++ written up_line results, down ++ written down_line results).
Proof.
  intros Hstep. induction results as [|r results IH]; intros up down.
  - cbn. now rewrite !append_nil_r.
  - cbn [fold_left written fold_right]. rewrite Hstep, IH.
    now rewrite !append_assoc.
Qed.

Lemma target_plain r : route_plain r -> all_chars is_plain (target r) = true.
Proof.
  destruct r as [[ip mask] mask2]. intros [Hip _]. unfold target.
  rewrite all_chars_append, (digit_or_dot_plain ip Hip).
  cbn [append all_chars]. now rewrite str_plain.
Qed.

Lemma map_ext_Forall {A B : Type} (P : A -> Prop) (f g : A -> B) l :
  Forall P l -> (forall x, P x -> f x = g x) -> map f l = map g l.
Proof.
  intros Hl Hfg. induction Hl as [|x l Hx _ IH]; [reflexivity|].
  cbn [map]. now rewrite (Hfg x Hx), IH.
Qed.

Lemma commands_written_only command words (results : list route) :
  command <> "" ->
  Forall (fun r => all_chars (is_not newline) (command ++ words r) = true)
    results ->
  commands command (written (fun r => command ++ words r) results) =
  map (fun r => Py.split " " (words r)) results.
Proof.
  intros Hc H. rewrite <- (append_nil_r (written _ results)).
  rewrite commands_written by exact H.
  destruct command; [contradiction | apply app_nil_r].
Qed.

Lemma commands_written_other command line (results : list route) tail :
  (forall r, String.prefix command (line r) = false) ->
  Forall (fun r => all_chars (is_not newline) (line r) = true) results ->
  commands command (written line results ++ tail) = commands command tail.
Proof.
  intros Hp. induction 1 as [|r results Hr _ IH]; [reflexivity|].
  cbn [written fold_right]. fold (written line results).
  set (W := written line results) in *.
  replace (((line r ++ nl) ++ W) ++ tail)
    with (line r ++ String newline (W ++ tail))
    by (unfold nl; rewrite !append_assoc; reflexivity).
  unfold commands at 1. rewrite split_app_sep by exact Hr.
  cbn [flat_map]. rewrite Hp. exact IH.
Qed.

(** ** [generate_linux] *)

Lemma generate_linux_files metric results :
  Generators.generate_linux metric results =
  [("ip-pre-up.sh",
    Textwrap.dedent Generators.linux_upscript_header
      ++ String newline
           (written (fun r => "ip route add " ++ (target r ++ " via $OLDGW"))
              results));
   ("ip-down.sh",
    Textwrap.dedent Generators.linux_downscript_header
      ++ String newline
           (written (fun r => "ip route del " ++ target r) results
              ++ ("rm /tmp/vpn_oldgw" ++ nl)))].
Proof.
  unfold Generators.generate_linux. cbv zeta.
  rewrite (fold_written
             (fun r => "ip route add " ++ (target r ++ " via $OLDGW"))
             (fun r => "ip route del " ++ target r)).
  - unfold nl. rewrite !append_assoc. reflexivity.
  - intros up down [[ip mask] mask2]. unfold target.
    now rewrite !append_assoc.
Qed.

(** X16.  The two scripts of [generate_linux] match: for the routes of any text
    that the extractor reads, the up script adds one route for each of
    them, in their order and through the old gateway, the down script
    deletes the same networks in the same order, and then removes the file
    of the old gateway. *)
Theorem linux_down_undoes_up :
  forall data results metric,
    fetch_ip_data_parse data = Ok results ->
    let files := Generators.generate_linux metric results in
    commands "ip route add " (content_of "ip-pre-up.sh" files) =
      map (fun r => [target r; "via"; "$OLDGW"]) results /\
    commands "ip route del " (content_of "ip-down.sh" files) =
      map (fun r => [target r]) results /\
    commands "rm " (content_of "ip-down.sh" files) = [["/tmp/vpn_oldgw"]].
Proof.
  intros data results metric H files. subst files.
  pose proof (routes_plain data results H) as Hplain.
  rewrite generate_linux_files. cbn [content_of String.eqb Ascii.eqb Bool.eqb].
  rewrite !commands_append.
  assert (Hup : commands "ip route add "
                  (Textwrap.dedent Generators.linux_upscript_header) = [])
    by (vm_compute; reflexivity).
  assert (Hdown : commands "ip route del "
                    (Textwrap.dedent Generators.linux_downscript_header) = [])
    by (vm_compute; reflexivity).
  assert (Hrm : commands "rm "
                  (Textwrap.dedent Generators.linux_downscript_header) = [])
    by (vm_compute; reflexivity).
  rewrite Hup, Hdown, Hrm. cbn [app].
  split; [|split].
  - rewrite commands_written_only; [|discriminate|].
    + apply (map_ext_Forall route_plain); [exact Hplain|].
      intros r Hr. rewrite split_app_sep; [reflexivity|].
      apply plain_not_space, target_plain, Hr.
    + eapply Forall_impl; [|exact Hplain]. intros r Hr.
      rewrite !all_chars_append, (plain_not_newline _ (target_plain r Hr)).
      reflexivity.
  - rewrite commands_written.
    + change (commands "ip route del " ("rm /tmp/vpn_oldgw" ++ nl)) with
        (@nil (list string)).
      rewrite app_nil_r.
      apply (map_ext_Forall route_plain); [exact Hplain|].
      intros r Hr. apply split_no_sep, plain_not_space, target_plain, Hr.
    + eapply Forall_impl; [|exact Hplain]. intros r Hr.
      rewrite !all_chars_append, (plain_not_newline _ (target_plain r Hr)).
      reflexivity.
  - rewrite commands_written_other; [reflexivity | reflexivity |].
    eapply Forall_impl; [|exact Hplain]. intros r Hr.
    rewrite !all_chars_append, (plain_not_newline _ (target_plain r Hr)).
    reflexivity.
Qed.

Lemma linux_down_undoes_up_witness :
  let files :=
    Generators.generate_linux (Some 5)
      [("1.0.1.0", "255.255.255.0", 24); ("1.0.2.0", "255.255.254.0", 23)] in
  commands "ip route add " (content_of "ip-pre-up.sh" files) =
    map (fun r => [target r; "via"; "$OLDGW"])
      [("1.0.1.0", "255.255.255.0", 24); ("1.0.2.0", "255.255.254.0", 23)] /\
  commands "ip route del " (content_of "ip-down.sh" files) =
    map (fun r => [target r])
      [("1.0.1.0", "255.255.255.0", 24); ("1.0.2.0", "255.255.254.0", 23)] /\
  commands "rm " (content_of "ip-down.sh" files) = [["/tmp/vpn_oldgw"]].
Proof.
  apply (linux_down_undoes_up
           ("apnic|cn|ipv4|1.0.1.0|256|20110414|allocated" ++ String newline
            "apnic|cn|ipv4|1.0.2.0|512|20110414|allocated")).
  vm_compute. reflexivity.
Defined.

(** ** [generate_mac] *)

Lemma generate_mac_files metric results :
  Generators.generate_mac metric results =
  [("ip-up",
    Textwrap.dedent Generators.mac_upscript_header
      ++ String newline
           (written
              (fun r => "route add " ++ (target r ++ String " " quoted_gateway))
              results));
   ("ip-down",
    Textwrap.dedent Generators.mac_downscript_header
      ++ String newline
           (written (fun r => "route delete " ++ (target r ++ " $OLDGW")) results
              ++ (nl ++ nl ++ "rm /tmp/pptp_oldgw" ++ nl)))].
Proof.
  unfold Generators.generate_mac. cbv zeta.
  rewrite (fold_written
             (fun r => "route add " ++ (target r ++ String " " quoted_gateway))
             (fun r => "route delete " ++ (target r ++ " $OLDGW"))).
  - unfold nl. rewrite !append_assoc. reflexivity.
  - intros up down [[ip mask] mask2]. unfold target.
    now rewrite !append_assoc.
Qed.

(** X17.  The two scripts of [generate_mac] match: the up script adds the three
    private networks and then one route for each route of the extractor, in
    their order; the down script deletes the same networks in the same
    order, and then removes the file of the old gateway. *)
Theorem mac_down_undoes_up :
  forall data results metric,
    fetch_ip_data_parse data = Ok results ->
    let files := Generators.generate_mac metric results in
    let private := ["10.0.0.0/8"; "172.16.0.0/12"; "192.168.0.0/16"] in
    commands "route add " (content_of "ip-up" files) =
      (map (fun net => [net; quoted_gateway]) private ++
       map (fun r => [target r; quoted_gateway]) results)%list /\
    commands "route delete " (content_of "ip-down" files) =
      (map (fun net => [net; quoted_gateway]) private ++
       map (fun r => [target r; "$OLDGW"]) results)%list /\
    commands "rm " (content_of "ip-down" files) = [["/tmp/pptp_oldgw"]].
Proof.
  intros data results metric H files private. subst files private.
  pose proof (routes_plain data results H) as Hplain.
  assert (Hlines : forall command words,
            all_chars (is_not newline) command = true ->
            all_chars (is_not newline) words = true ->
            Forall (fun r => all_chars (is_not newline)
                               (command ++ (target r ++ words)) = true)
              results).
  { intros command words Hc Hw. eapply Forall_impl; [|exact Hplain].
    intros r Hr.
    now rewrite !all_chars_append, Hc, Hw,
      (plain_not_newline _ (target_plain r Hr)). }
  rewrite generate_mac_files. cbn [content_of String.eqb Ascii.eqb Bool.eqb].
  rewrite !commands_append.
  split; [|split].
  - rewrite commands_written_only; [|discriminate|].
    + change (commands "route add "
                (Textwrap.dedent Generators.mac_upscript_header))
        with (map (fun net => [net; quoted_gateway])
                ["10.0.0.0/8"; "172.16.0.0/12"; "192.168.0.0/16"]).
      apply (f_equal (app _)).
      apply (map_ext_Forall route_plain); [exact Hplain|].
      intros r Hr. rewrite split_app_sep; [reflexivity|].
      apply plain_not_space, target_plain, Hr.
    + apply Hlines; reflexivity.
  - rewrite commands_written by (apply Hlines; reflexivity).
    change (commands "route delete "
              (Textwrap.dedent Generators.mac_downscript_header))
      with (map (fun net => [net; quoted_gateway])
              ["10.0.0.0/8"; "172.16.0.0/12"; "192.168.0.0/16"]).
    apply (f_equal (app _)).
    change (commands "route delete " (nl ++ nl ++ "rm /tmp/pptp_oldgw" ++ nl))
      with (@nil (list string)).
    rewrite app_nil_r.
    apply (map_ext_Forall route_plain); [exact Hplain|].
    intros r Hr. rewrite split_app_sep; [reflexivity|].
    apply plain_not_space, target_plain, Hr.
  - rewrite commands_written_other;
      [vm_compute; reflexivity | reflexivity | apply Hlines; reflexivity].
Qed.

Lemma mac_down_undoes_up_witness :
  let files :=
    Generators.generate_mac None [("1.0.1.0", "255.255.255.0", 24)] in
  let private := ["10.0.0.0/8"; "172.16.0.0/12"; "192.168.0.0/16"] in
  commands "route add " (content_of "ip-up" files) =
    (map (fun net => [net; quoted_gateway]) private ++
     map (fun r => [target r; quoted_gateway])
       [("1.0.1.0", "255.255.255.0", 24)])%list /\
  commands "route delete " (content_of "ip-down" files) =
    (map (fun net => [net; quoted_gateway]) private ++
     map (fun r => [target r; "$OLDGW"])
       [("1.0.1.0", "255.255.255.0", 24)])%list /\
  commands "rm " (content_of "ip-down" files) = [["/tmp/pptp_oldgw"]].
Proof.
  apply (mac_down_undoes_up "apnic|cn|ipv4|1.0.1.0|256|20110414|allocated").
  vm_compute. reflexivity.
Defined.

(** ** [generate_android] *)

Lemma generate_android_files metric results :
  Generators.generate_android metric results =
  [("vpnup.sh",
    Textwrap.dedent Generators.android_upscript_header
      ++ String newline
           (written
              (fun r => "route add -net " ++ netmask_words " gw $OLDGW" r)
              results));
   ("vpndown.sh",
    Textwrap.dedent Generators.android_downscript_header
      ++ String newline
           (written (fun r => "route del -net " ++ netmask_words "" r)
              results))].
Proof.
  unfold Generators.generate_android. cbv zeta.
  rewrite (fold_written
             (fun r => "route add -net " ++ netmask_words " gw $OLDGW" r)
             (fun r => "route del -net " ++ netmask_words "" r)).
  - unfold nl. rewrite !append_assoc. reflexivity.
  - intros up down [[ip mask] mask2]. unfold netmask_words.
    rewrite !append_assoc. reflexivity.
Qed.

Lemma netmask_words_plain gateway r :
  route_plain r -> all_chars (is_not newline) gateway = true ->
  all_chars (is_not newline) (netmask_words gateway r) = true.
Proof.
  destruct r as [[ip mask] mask2]. intros [Hip Hmask] Hg. unfold netmask_words.
  now rewrite !all_chars_append, Hg,
    (plain_not_newline _ (digit_or_dot_plain _ Hip)),
    (plain_not_newline _ (digit_or_dot_plain _ Hmask)).
Qed.

Lemma netmask_words_split gateway ip mask mask2 :
  route_plain (ip, mask, mask2) ->
  Py.split " " (netmask_words gateway (ip, mask, mask2)) =
  ip :: "netmask" :: Py.split " " (mask ++ gateway).
Proof.
  intros [Hip Hmask]. unfold netmask_words. cbn [append].
  rewrite split_app_sep by (apply plain_not_space, digit_or_dot_plain, Hip).
  apply (f_equal (cons ip)).
  exact (split_app_sep " " "netmask" (mask ++ gateway) eq_refl).
Qed.

(** X18.  The two scripts of [generate_android] match: the up script adds one
    network route, with its address and dotted mask, for each route of the
    extractor, in their order, and the down script deletes the same
    networks with the same masks in the same order. *)
Theorem android_down_undoes_up :
  forall data results metric,
    fetch_ip_data_parse data = Ok results ->
    let files := Generators.generate_android metric results in
    commands "route add -net " (content_of "vpnup.sh" files) =
      map (fun '(ip, mask, _) => [ip; "netmask"; mask; "gw"; "$OLDGW"])
        results /\
    commands "route del -net " (content_of "vpndown.sh" files) =
      map (fun '(ip, mask, _) => [ip; "netmask"; mask]) results.
Proof.
  intros data results metric H files. subst files.
  pose proof (routes_plain data results H) as Hplain.
  rewrite generate_android_files.
  cbn [content_of String.eqb Ascii.eqb Bool.eqb].
  rewrite !commands_append.
  assert (Hup : commands "route add -net "
                  (Textwrap.dedent Generators.android_upscript_header) = [])
    by (vm_compute; reflexivity).
  assert (Hdown : commands "route del -net "
                    (Textwrap.dedent Generators.android_downscript_header) = [])
    by (vm_compute; reflexivity).
  rewrite Hup, Hdown. cbn [app].
  split.
  - rewrite commands_written_only; [|discriminate|].
    + apply (map_ext_Forall route_plain); [exact Hplain|].
      intros [[ip mask] mask2] Hr. rewrite netmask_words_split by exact Hr.
      destruct Hr as [_ Hmask].
      rewrite split_app_sep
        by (apply plain_not_space, digit_or_dot_plain, Hmask).
      reflexivity.
    + eapply Forall_impl; [|exact Hplain]. intros r Hr.
      rewrite all_chars_append, netmask_words_plain by (trivial; reflexivity).
      reflexivity.
  - rewrite commands_written_only; [|discriminate|].
    + apply (map_ext_Forall route_plain); [exact Hplain|].
      intros [[ip mask] mask2] Hr. rewrite netmask_words_split by exact Hr.
      destruct Hr as [_ Hmask]. rewrite append_nil_r.
      rewrite split_no_sep
        by (apply plain_not_space, digit_or_dot_plain, Hmask).
      reflexivity.
    + eapply Forall_impl; [|exact Hplain]. intros r Hr.
      rewrite all_chars_append, netmask_words_plain by (trivial; reflexivity).
      reflexivity.
Qed.

Lemma android_down_undoes_up_witness :
  let files :=
    Generators.generate_android (Some 5) [("1.0.1.0", "255.255.255.0", 24)] in
  commands "route add -net " (content_of "vpnup.sh" files) =
    map (fun '(ip, mask, _) => [ip; "netmask"; mask; "gw"; "$OLDGW"])
      [("1.0.1.0", "255.255.255.0", 24)] /\
  commands "route del -net " (content_of "vpndown.sh" files) =
    map (fun '(ip, mask, _) => [ip; "netmask"; mask])
      [("1.0.1.0", "255.255.255.0", 24)].
Proof.
  apply (android_down_undoes_up
           "apnic|cn|ipv4|1.0.1.0|256|20110414|allocated").
  vm_compute. reflexivity.
Defined.

(** ** [generate_ovpn] *)

Lemma fold_written_one (line : route -> string) step results :
  (forall acc r, step acc r = acc ++ (line r ++ nl)) ->
  forall acc, fold_left step results acc = acc ++ written line results.
Proof.
  intros Hstep. induction results as [|r results IH]; intros acc.
  - cbn. now rewrite append_nil_r.
  - cbn [fold_left written fold_right]. rewrite Hstep, IH.
    now rewrite !append_assoc.
Qed.

Lemma generate_ovpn_files metric results :
  Generators.generate_ovpn metric results =
  [("routes.txt", written (fun r => "route " ++ ovpn_words metric r) results)].
Proof.
  unfold Generators.generate_ovpn. cbv zeta.
  rewrite (fold_written_one (fun r => "route " ++ ovpn_words metric r)).
  - reflexivity.
  - intros acc [[ip mask] mask2]. unfold ovpn_words.
    rewrite !append_assoc. reflexivity.
Qed.

Lemma split_written line (results : list route) :
  Forall (fun r => all_chars (is_not newline) (line r) = true) results ->
  Py.split newline (written line results) = (map line results ++ [""])%list.
Proof.
  induction 1 as [|r results Hr _ IH]; [reflexivity|].
  cbn [written fold_right map]. fold (written line results).
  replace ((line r ++ nl) ++ written line results)
    with (line r ++ String newline (written line results))
    by (unfold nl; rewrite !append_assoc; reflexivity).
  rewrite split_app_sep by exact Hr. cbn [app]. now rewrite IH.
Qed.

(** X15.  [routes.txt] holds one line for each route of the extractor and no
    other: a [route] directive with the address, the dotted mask,
    [net_gateway] and the metric, in the order of the routes; the number
    printed for [max-routes] is 20 more than the number of these lines. *)
Theorem ovpn_routes_file :
  forall data results metric,
    fetch_ip_data_parse data = Ok results ->
    let content :=
      content_of "routes.txt" (Generators.generate_ovpn metric results) in
    commands "route " content =
      map (fun '(ip, mask, _) => [ip; mask; "net_gateway"; format_metric metric])
        results /\
    List.length (Py.split newline content) = S (List.length results) /\
    Generators.max_routes results =
      Z.of_nat (List.length (commands "route " content)) + 20.
Proof.
  intros data results metric H content. subst content.
  pose proof (routes_plain data results H) as Hplain.
  rewrite generate_ovpn_files. cbn [content_of String.eqb Ascii.eqb Bool.eqb].
  assert (Hlines : Forall
            (fun r => all_chars (is_not newline)
                        ("route " ++ ovpn_words metric r) = true) results).
  { eapply Forall_impl; [|exact Hplain]. intros [[ip mask] mask2] [Hip Hmask].
    unfold ovpn_words.
    now rewrite !all_chars_append,
      (plain_not_newline _ (digit_or_dot_plain _ Hip)),
      (plain_not_newline _ (digit_or_dot_plain _ Hmask)),
      (plain_not_newline _ (format_metric_plain metric)). }
  assert (Hcmd : commands "route "
                   (written (fun r => "route " ++ ovpn_words metric r) results) =
                 map (fun '(ip, mask, _) =>
                        [ip; mask; "net_gateway"; format_metric metric])
                   results).
  { rewrite commands_written_only; [|discriminate|exact Hlines].
    apply (map_ext_Forall route_plain); [exact Hplain|].
    intros [[ip mask] mask2] [Hip Hmask]. unfold ovpn_words. cbn [append].
    rewrite split_app_sep by (apply plain_not_space, digit_or_dot_plain, Hip).
    rewrite split_app_sep by (apply plain_not_space, digit_or_dot_plain, Hmask).
    apply (f_equal (fun l => ip :: mask :: l)).
    pose proof (split_app_sep " " "net_gateway" (format_metric metric) eq_refl)
      as E.
    rewrite (split_no_sep " " (format_metric metric)) in E
      by (apply plain_not_space, format_metric_plain).
    exact E. }
  rewrite Hcmd. split; [reflexivity|]. split.
  - rewrite split_written by exact Hlines.
    rewrite length_app, length_map. simpl. lia.
  - unfold Generators.max_routes. now rewrite length_map.
Qed.

Lemma ovpn_routes_file_witness :
  let content :=
    content_of "routes.txt"
      (Generators.generate_ovpn (Some 5)
         [("1.0.1.0", "255.255.255.0", 24); ("1.0.2.0", "255.255.254.0", 23)]) in
  commands "route " content =
    map (fun '(ip, mask, _) => [ip; mask; "net_gateway"; format_metric (Some 5)])
      [("1.0.1.0", "255.255.255.0", 24); ("1.0.2.0", "255.255.254.0", 23)] /\
  List.length (Py.split newline content) = 3%nat /\
  Generators.max_routes
    [("1.0.1.0", "255.255.255.0", 24); ("1.0.2.0", "255.255.254.0", 23)] =
    Z.of_nat (List.length (commands "route " content)) + 20.
Proof.
  apply (ovpn_routes_file
           ("apnic|cn|ipv4|1.0.1.0|256|20110414|allocated" ++ String newline
            "apnic|cn|ipv4|1.0.2.0|512|20110414|allocated")).
  vm_compute. reflexivity.
Defined.

(** ** The first line of the scripts *)

Lemma first_line_append a b :
  hd "" (Py.split newline (a ++ String newline b)) =
  hd "" (Py.split newline a).
Proof.
  rewrite split_append. pose proof (split_nonempty newline a).
  destruct (Py.split newline a); [contradiction | reflexivity].
Qed.

(** X19.  Every script that the generators for Linux, macOS and Android write
    starts, in its first column, with the line that names its interpreter,
    whatever the routes: the indentation that the headers have in the
    source is gone. *)
Theorem scripts_start_with_interpreter :
  forall g metric results,
    g <> generate_ovpn ->
    Forall (fun f => hd "" (Py.split newline (snd f)) = shebang g)
      (files_of g metric results).
Proof.
  intros g metric results Hg. destruct g; [contradiction| | |];
    cbn [files_of shebang].
  - rewrite generate_linux_files.
    repeat constructor; cbn [snd]; rewrite first_line_append;
      vm_compute; reflexivity.
  - rewrite generate_mac_files.
    repeat constructor; cbn [snd]; rewrite first_line_append;
      vm_compute; reflexivity.
  - rewrite generate_android_files.
    repeat constructor; cbn [snd]; rewrite first_line_append;
      vm_compute; reflexivity.
Qed.

Lemma scripts_start_with_interpreter_witness :
  Forall (fun f => hd "" (Py.split newline (snd f)) = "#!/bin/bash")
    (Generators.generate_linux (Some 5) [("1.0.1.0", "255.255.255.0", 24)]).
Proof.
  apply (scripts_start_with_interpreter generate_linux (Some 5)
           [("1.0.1.0", "255.255.255.0", 24)]).
  discriminate.
Defined.
